(** * Movies API: the in-memory store, filter engine, pagination and statistics

    A shallow embedding of [PythonApi/database.py] (class [MovieDatabase]) and
    of the handlers of [PythonApi/main.py] that compute on its results,
    together with the properties of the catalogue that the specification
    states about them.

    Conventions of the embedding:
    - Python [int] is [Z]; Python [float] is an IEEE-754 binary64 number, that
      is Rocq's primitive [float];
    - [Optional[T]] is [option T], with [None] for Python's [None];
    - [str] is [string]; case folding with [str.lower] is modelled on ASCII
      letters;
    - the database object is a record threaded through every operation: the
      single lock of the class serialises the operations, so each one is a
      function from the state before it to the state after it. *)

From Stdlib Require Import ZArith List Bool Ascii String Lia.
From Stdlib Require Import PrimFloat Permutation Sorted.
From Stdlib Require Import DecimalString DecimalN OrderedTypeEx.
Import ListNotations.

Local Open Scope string_scope.
Local Open Scope list_scope.
Local Open Scope Z_scope.

(** ** Data model *)

(** An entry of [genres], [cast], [crew], ...: a Python [dict] with string
    keys.  Only its ["name"] key is ever read. *)
Definition Entry := list (string * string).

Fixpoint dict_get (d : Entry) (key default : string) : string :=
  match d with
  | [] => default
  | (k, v) :: d' => if String.eqb k key then v else dict_get d' key default
  end.

(** Modelled from the spec: the classes [Movie], [MovieFilters],
    [CreateMovieCommand] and [UpdateMovieCommand] are declared in [models.py],
    which is not part of the sources at hand.  The fields are those read and
    written by [database.py] and [main.py], with the optionality of section 3
    of the specification. *)
Record Movie := mkMovie {
  id : Z;
  title : option string;
  overview : option string;
  genres : list Entry;
  keywords : list Entry;
  tagline : option string;
  cast : list Entry;
  crew : list Entry;
  production_companies : list Entry;
  production_countries : list Entry;
  spoken_languages : list Entry;
  original_language : option string;
  original_title : option string;
  release_date : option string;
  runtime : option Z;
  vote_average : option float;
  vote_count : option Z;
  popularity : option float;
  is_favorite : bool;
  personal_rating : option float;
  personal_notes : option string
}.

(** [MovieFilters]: every predicate group is optional. *)
Record MovieFilters := mkFilters {
  search : option string;
  f_genres : option (list string);
  year_from : option Z;
  year_to : option Z;
  rating_from : option float;
  rating_to : option float;
  runtime_from : option Z;
  runtime_to : option Z;
  language : option string;
  f_is_favorite : option bool;
  personal_rating_from : option float;
  personal_rating_to : option float
}.

(** [UpdateMovieCommand]: plain nullable fields, [None] by default. *)
Record UpdateMovieCommand := mkUpdate {
  u_title : option string;
  u_overview : option string;
  u_is_favorite : option bool;
  u_personal_rating : option float;
  u_personal_notes : option string
}.

(** [CreateMovieCommand]: the fields [create_movie] copies into the record. *)
Record CreateMovieCommand := mkCreate {
  c_title : option string;
  c_overview : option string;
  c_genres : list Entry;
  c_keywords : list Entry;
  c_tagline : option string;
  c_cast : list Entry;
  c_crew : list Entry;
  c_production_companies : list Entry;
  c_production_countries : list Entry;
  c_spoken_languages : list Entry;
  c_original_language : option string;
  c_original_title : option string;
  c_release_date : option string;
  c_runtime : option Z;
  c_vote_average : option float;
  c_vote_count : option Z;
  c_popularity : option float
}.

(** The state of a [MovieDatabase] object that its methods read and write. *)
Record MovieDatabase := mkDB {
  _movies : list Movie;
  _next_id : Z;
  _loaded : bool
}.

(** ** Python primitives used by the code *)

Module Py.

(** Truth value of an [Optional[float]], an [Optional[int]], an
    [Optional[str]] and an [Optional[list]]: [None], zero and the empty
    string or list are false. *)
Definition truthy_float (x : option float) : bool :=
  match x with
  | None => false
  | Some v => negb (PrimFloat.eqb v 0%float)
  end.

Definition truthy_int (x : option Z) : bool :=
  match x with
  | None => false
  | Some v => negb (v =? 0)
  end.

Definition truthy_str (x : option string) : bool :=
  match x with
  | None => false
  | Some s => negb (String.eqb s "")
  end.

Definition truthy_list {A} (x : option (list A)) : bool :=
  match x with
  | None => false
  | Some [] => false
  | Some (_ :: _) => true
  end.

(** [str.lower], on ASCII letters. *)
Definition lower_char (c : ascii) : ascii :=
  let n := nat_of_ascii c in
  if (65 <=? n)%nat && (n <=? 90)%nat then ascii_of_nat (n + 32) else c.

Fixpoint lower (s : string) : string :=
  match s with
  | EmptyString => EmptyString
  | String c s' => String (lower_char c) (lower s')
  end.

(** [needle in hay], which is also [hay.find(needle) >= 0]. *)
Fixpoint contains (needle hay : string) : bool :=
  String.prefix needle hay ||
  match hay with
  | EmptyString => false
  | String _ hay' => contains needle hay'
  end.

(** [s.split("-")[0]]: the text before the first dash, all of [s] when it
    has none.  The list [split] returns is never empty, so the index is
    always in range. *)
Fixpoint first_segment (s : string) : string :=
  match s with
  | EmptyString => EmptyString
  | String c s' =>
      if Ascii.eqb c "-" then EmptyString else String c (first_segment s')
  end.

(** [int(s)] in base 10: surrounding white space is dropped, one sign is
    allowed, and the digits may be grouped by single underscores.  [None]
    stands for [ValueError]. *)
Definition is_space (c : ascii) : bool :=
  let n := nat_of_ascii c in
  ((9 <=? n)%nat && (n <=? 13)%nat) || ((28 <=? n)%nat && (n <=? 32)%nat).

Definition is_digit (c : ascii) : bool :=
  let n := nat_of_ascii c in (48 <=? n)%nat && (n <=? 57)%nat.

Definition digit_value (c : ascii) : Z := Z.of_nat (nat_of_ascii c) - 48.

Fixpoint lstrip (cs : list ascii) : list ascii :=
  match cs with
  | c :: cs' => if is_space c then lstrip cs' else cs
  | [] => []
  end.

Definition strip (cs : list ascii) : list ascii :=
  rev (lstrip (rev (lstrip cs))).

Fixpoint digits (acc : Z) (after_digit : bool) (cs : list ascii) : option Z :=
  match cs with
  | [] => if after_digit then Some acc else None
  | c :: cs' =>
      if is_digit c then digits (10 * acc + digit_value c) true cs'
      else if Ascii.eqb c "_" && after_digit then digits acc false cs'
      else None
  end.

Definition int (s : string) : option Z :=
  match strip (list_ascii_of_string s) with
  | c :: cs =>
      if Ascii.eqb c "-" then option_map Z.opp (digits 0 false cs)
      else if Ascii.eqb c "+" then digits 0 false cs
      else digits 0 false (c :: cs)
  | [] => None
  end.

(** [lst[start:end]] for integer bounds: a negative bound counts from the
    end, and both are clamped to the list. *)
Definition clamp_index (len i : Z) : Z :=
  if i <? 0 then Z.max 0 (i + len) else Z.min i len.

Definition slice {A} (l : list A) (start stop : Z) : list A :=
  let len := Z.of_nat (List.length l) in
  let a := clamp_index len start in
  let b := clamp_index len stop in
  firstn (Z.to_nat (b - a)) (skipn (Z.to_nat a) l).

End Py.

(** ** Filter engine ([MovieDatabase._apply_filters]) *)

(** [_check_year_filter]: the release year is the integer before the first
    dash of the date.  A bound that is [None] or [0] is skipped by the
    truth-value tests [year_from and ...], [year_to and ...]. *)
Definition _check_year_filter
    (release_date : option string) (year_from year_to : option Z) : bool :=
  if negb (Py.truthy_str release_date) then false
  else
    match release_date with
    | None => false
    | Some d =>
        match Py.int (Py.first_segment d) with
        | Some year =>
            if Py.truthy_int year_from
               && match year_from with Some y => year <? y | None => false end
            then false
            else if Py.truthy_int year_to
               && match year_to with Some y => year >? y | None => false end
            then false
            else true
        | None => false
        end
    end.

(** [movie.title and search_term in movie.title.lower()] *)
Definition text_matches (search_term : string) (text : option string) : bool :=
  match text with
  | Some s => negb (String.eqb s "") && Py.contains search_term (Py.lower s)
  | None => false
  end.

(** [any(member.get("name", "").lower().find(search_term) >= 0 for member in members)] *)
Definition any_name_matches (search_term : string) (members : list Entry) : bool :=
  existsb (fun member => Py.contains search_term (Py.lower (dict_get member "name" "")))
          members.

Definition search_keeps (search_term : string) (movie : Movie) : bool :=
  text_matches search_term (title movie)
  || text_matches search_term (overview movie)
  || any_name_matches search_term (cast movie)
  || any_name_matches search_term (crew movie).

(** [any(genre.get("name", "").lower() in [g.lower() for g in filters.genres]
        for genre in movie.genres)] *)
Definition genres_keeps (wanted : list string) (movie : Movie) : bool :=
  existsb (fun genre =>
             existsb (String.eqb (Py.lower (dict_get genre "name" "")))
                     (map Py.lower wanted))
          (genres movie).

(** [value and value >= bound], [value and value <= bound] on floats ... *)
Definition float_at_least (value : option float) (bound : float) : bool :=
  Py.truthy_float value &&
  match value with Some v => PrimFloat.leb bound v | None => false end.

Definition float_at_most (value : option float) (bound : float) : bool :=
  Py.truthy_float value &&
  match value with Some v => PrimFloat.leb v bound | None => false end.

(** ... and on integers. *)
Definition int_at_least (value : option Z) (bound : Z) : bool :=
  Py.truthy_int value &&
  match value with Some v => v >=? bound | None => false end.

Definition int_at_most (value : option Z) (bound : Z) : bool :=
  Py.truthy_int value &&
  match value with Some v => v <=? bound | None => false end.

(** [movie.original_language == filters.language] *)
Definition language_keeps (lang : string) (movie : Movie) : bool :=
  match original_language movie with
  | Some l => String.eqb l lang
  | None => false
  end.

(** One list comprehension when the group is given, the list as it is
    otherwise: [if bound is not None: filtered = [m for m in filtered if ...]]. *)
Definition when_given {A} (bound : option A) (keeps : A -> Movie -> bool)
    (filtered : list Movie) : list Movie :=
  match bound with
  | Some b => List.filter (keeps b) filtered
  | None => filtered
  end.

Definition _apply_filters (movies : list Movie) (filters : option MovieFilters)
    : list Movie :=
  match filters with
  | None => movies
  | Some filters =>
      let filtered := movies in
      (* Search filter *)
      let filtered :=
        if Py.truthy_str (search filters)
        then when_given (search filters)
               (fun s => search_keeps (Py.lower s)) filtered
        else filtered in
      (* Genre filter *)
      let filtered :=
        if Py.truthy_list (f_genres filters)
        then when_given (f_genres filters) genres_keeps filtered
        else filtered in
      (* Year filters *)
      let filtered :=
        if Py.truthy_int (year_from filters) || Py.truthy_int (year_to filters)
        then List.filter
               (fun movie => _check_year_filter (release_date movie)
                               (year_from filters) (year_to filters))
               filtered
        else filtered in
      (* Rating filters *)
      let filtered :=
        when_given (rating_from filters)
          (fun b movie => float_at_least (vote_average movie) b) filtered in
      let filtered :=
        when_given (rating_to filters)
          (fun b movie => float_at_most (vote_average movie) b) filtered in
      (* Runtime filters *)
      let filtered :=
        when_given (runtime_from filters)
          (fun b movie => int_at_least (runtime movie) b) filtered in
      let filtered :=
        when_given (runtime_to filters)
          (fun b movie => int_at_most (runtime movie) b) filtered in
      (* Language filter *)
      let filtered :=
        if Py.truthy_str (language filters)
        then when_given (language filters) language_keeps filtered
        else filtered in
      (* Favorite filter *)
      let filtered :=
        when_given (f_is_favorite filters)
          (fun b movie => Bool.eqb (is_favorite movie) b) filtered in
      (* Personal rating filters *)
      let filtered :=
        when_given (personal_rating_from filters)
          (fun b movie => float_at_least (personal_rating movie) b) filtered in
      let filtered :=
        when_given (personal_rating_to filters)
          (fun b movie => float_at_most (personal_rating movie) b) filtered in
      filtered
  end.

(** ** Data sources of the bulk load *)

(** Modelled from the spec: [Movie.from_csv_row] is declared in [models.py],
    which is not part of the sources at hand.  A row of a data file is
    represented by what [Movie.from_csv_row(row.to_dict(), movie_id)] makes of
    it: the record built for the identifier it is given, or [None] when the
    call raises and the row is skipped (section 4.1: malformed rows are
    skipped, they never abort the load). *)
Definition Row := Z -> option Movie.

(** A file of the chunk directory: the rows of the frame [pd.read_csv]
    returns, or [Unreadable] when [pd.read_csv] raises. *)
Inductive ChunkFile :=
| Readable (rows : list Row)
| Unreadable.

(** The directory [data_chunks]: [exists()] or [glob] raising, the directory
    missing, or the sorted list of the files [movies_chunk_*.csv]. *)
Inductive ChunkDir :=
| DirFault
| DirMissing
| DirFiles (chunk_files : list ChunkFile).

(** A single CSV file: [exists()] raising, the file missing, or a file with,
    for each encoding, whether the five-row sample parses and the frames the
    chunk reader yields up to its end or to the first exception it raises. *)
Inductive CsvSource :=
| CsvFault
| CsvMissing
| CsvFile (sample_parses : string -> bool) (chunk_reader : string -> list (list Row)).

(** [use_chunks] and [data_source], fixed by [__init__]. *)
Inductive DataSource :=
| Chunks (dir : ChunkDir)
| SingleCsv (file : CsvSource).

Definition use_chunks (source : DataSource) : bool :=
  match source with Chunks _ => true | SingleCsv _ => false end.

(** The result of a call that may raise.  Both loaders raise only before
    they have written anything to the database object. *)
Inductive Outcome (A : Type) :=
| Return (a : A)
| Raise.
Arguments Return {A} a.
Arguments Raise {A}.

(** ** In-memory store *)

(** [MovieDatabase.__init__] *)
Definition init : MovieDatabase :=
  {| _movies := []; _next_id := 1; _loaded := false |}.

Definition len {A} (l : list A) : Z := Z.of_nat (List.length l).

(** The row loop of [_load_from_chunks]: [(self._movies, total_loaded)]. *)
Fixpoint load_chunk_rows (rows : list Row) (state : list Movie * Z)
    : list Movie * Z :=
  match rows with
  | [] => state
  | row :: rows' =>
      let '(movies, total_loaded) := state in
      let movie_id := total_loaded + 1 in
      match row movie_id with
      | Some movie => load_chunk_rows rows' (movies ++ [movie], total_loaded + 1)
      | None => load_chunk_rows rows' state
      end
  end.

(** The file loop of [_load_from_chunks]. *)
Fixpoint load_chunk_files (chunk_files : list ChunkFile) (state : list Movie * Z)
    : list Movie * Z :=
  match chunk_files with
  | [] => state
  | Readable rows :: files' => load_chunk_files files' (load_chunk_rows rows state)
  | Unreadable :: files' => load_chunk_files files' state
  end.

Definition _load_from_chunks (dir : ChunkDir) (db : MovieDatabase)
    : Outcome MovieDatabase :=
  match dir with
  | DirFault => Raise
  | DirMissing => Return db
  | DirFiles [] => Return db
  | DirFiles chunk_files =>
      let '(movies, _) := load_chunk_files chunk_files ([], 0) in
      Return {| _movies := movies;
                _next_id := len movies + 1;
                _loaded := _loaded db |}
  end.

(** The row loop of [_load_from_csv_chunked]; [offset] is
    [idx - chunk_df.index[0]], the position of the row in its frame. *)
Fixpoint load_frame_rows (rows : list Row) (processed_count offset : Z)
    (movies : list Movie) : list Movie :=
  match rows with
  | [] => movies
  | row :: rows' =>
      let movie_id := processed_count + offset + 1 in
      match row movie_id with
      | Some movie =>
          load_frame_rows rows' processed_count (offset + 1) (movies ++ [movie])
      | None => load_frame_rows rows' processed_count (offset + 1) movies
      end
  end.

(** The frame loop of [_load_from_csv_chunked]; [processed_count] is
    [len(self._movies)] at the start of each frame. *)
Fixpoint load_frames (frames : list (list Row)) (movies : list Movie)
    : list Movie :=
  match frames with
  | [] => movies
  | rows :: frames' =>
      load_frames frames' (load_frame_rows rows (len movies) 0 movies)
  end.

Definition encodings : list string := ["latin-1"; "utf-8"; "iso-8859-1"; "cp1252"].

Definition _load_from_csv_chunked (file : CsvSource) (db : MovieDatabase)
    : Outcome MovieDatabase :=
  match file with
  | CsvFault => Raise
  | CsvMissing => Return db
  | CsvFile sample_parses chunk_reader =>
      match find sample_parses encodings with
      | None => Raise
      | Some encoding_used =>
          let movies := load_frames (chunk_reader encoding_used) [] in
          Return {| _movies := movies;
                    _next_id := len movies + 1;
                    _loaded := _loaded db |}
      end
  end.

(** The [try] block of [_ensure_loaded]: the loader [use_chunks] selects. *)
Definition bulk_load (source : DataSource) (db : MovieDatabase)
    : Outcome MovieDatabase :=
  match source with
  | Chunks dir => _load_from_chunks dir db
  | SingleCsv file => _load_from_csv_chunked file db
  end.

(** [_ensure_loaded]: nothing when the flag is set; otherwise the flag is set
    whether the load returns or raises, and a raising load leaves no record. *)
Definition _ensure_loaded (source : DataSource) (db : MovieDatabase)
    : MovieDatabase :=
  if _loaded db then db
  else
    match bulk_load source db with
    | Return db' =>
        {| _movies := _movies db'; _next_id := _next_id db'; _loaded := true |}
    | Raise =>
        {| _movies := []; _next_id := _next_id db; _loaded := true |}
    end.

(** [get_movies_paginated]: the page and the number of matches, with the
    database as the lazy load leaves it. *)
Definition get_movies_paginated (source : DataSource) (page size : Z)
    (filters : option MovieFilters) (db : MovieDatabase)
    : (list Movie * Z) * MovieDatabase :=
  let db := _ensure_loaded source db in
  let filtered_movies := _apply_filters (_movies db) filters in
  let total := len filtered_movies in
  let start_idx := (page - 1) * size in
  let end_idx := start_idx + size in
  ((Py.slice filtered_movies start_idx end_idx, total), db).

Definition create_movie (source : DataSource) (command : CreateMovieCommand)
    (db : MovieDatabase) : Z * MovieDatabase :=
  let db := _ensure_loaded source db in
  let movie :=
    {| id := _next_id db;
       title := c_title command;
       overview := c_overview command;
       genres := c_genres command;
       keywords := c_keywords command;
       tagline := c_tagline command;
       cast := c_cast command;
       crew := c_crew command;
       production_companies := c_production_companies command;
       production_countries := c_production_countries command;
       spoken_languages := c_spoken_languages command;
       original_language := c_original_language command;
       original_title := c_original_title command;
       release_date := c_release_date command;
       runtime := c_runtime command;
       vote_average := c_vote_average command;
       vote_count := c_vote_count command;
       popularity := c_popularity command;
       is_favorite := false;
       personal_rating := None;
       personal_notes := None |} in
  (id movie,
   {| _movies := _movies db ++ [movie];
      _next_id := _next_id db + 1;
      _loaded := _loaded db |}).

(** The body of the [if movie.id == id:] branch of [update_movie]: five
    independent assignments, each guarded by [command.<field> is not None]. *)
Definition overwrite {A} (given : option A) (stored : option A) : option A :=
  match given with
  | Some v => Some v
  | None => stored
  end.

Definition apply_update (command : UpdateMovieCommand) (movie : Movie) : Movie :=
  {| id := id movie;
     title := overwrite (u_title command) (title movie);
     overview := overwrite (u_overview command) (overview movie);
     genres := genres movie;
     keywords := keywords movie;
     tagline := tagline movie;
     cast := cast movie;
     crew := crew movie;
     production_companies := production_companies movie;
     production_countries := production_countries movie;
     spoken_languages := spoken_languages movie;
     original_language := original_language movie;
     original_title := original_title movie;
     release_date := release_date movie;
     runtime := runtime movie;
     vote_average := vote_average movie;
     vote_count := vote_count movie;
     popularity := popularity movie;
     is_favorite :=
       match u_is_favorite command with
       | Some b => b
       | None => is_favorite movie
       end;
     personal_rating := overwrite (u_personal_rating command) (personal_rating movie);
     personal_notes := overwrite (u_personal_notes command) (personal_notes movie) |}.

(** The loop of [update_movie]: the first record with the identifier is
    updated in place and the loop returns [True]; [False] at the end. *)
Fixpoint update_loop (movies : list Movie) (id0 : Z) (command : UpdateMovieCommand)
    : list Movie * bool :=
  match movies with
  | [] => ([], false)
  | movie :: rest =>
      if id movie =? id0 then (apply_update command movie :: rest, true)
      else
        let '(rest', found) := update_loop rest id0 command in
        (movie :: rest', found)
  end.

Definition update_movie (source : DataSource) (id0 : Z)
    (command : UpdateMovieCommand) (db : MovieDatabase) : bool * MovieDatabase :=
  let db := _ensure_loaded source db in
  let '(movies, found) := update_loop (_movies db) id0 command in
  (found, {| _movies := movies; _next_id := _next_id db; _loaded := _loaded db |}).

(** The loop of [delete_movie]: [del self._movies[i]] at the first match. *)
Fixpoint delete_loop (movies : list Movie) (id0 : Z) : list Movie * bool :=
  match movies with
  | [] => ([], false)
  | movie :: rest =>
      if id movie =? id0 then (rest, true)
      else
        let '(rest', found) := delete_loop rest id0 in
        (movie :: rest', found)
  end.

Definition delete_movie (source : DataSource) (id0 : Z) (db : MovieDatabase)
    : bool * MovieDatabase :=
  let db := _ensure_loaded source db in
  let '(movies, found) := delete_loop (_movies db) id0 in
  (found, {| _movies := movies; _next_id := _next_id db; _loaded := _loaded db |}).

Definition get_movie_by_id (source : DataSource) (id0 : Z) (db : MovieDatabase)
    : option Movie * MovieDatabase :=
  let db := _ensure_loaded source db in
  (find (fun movie => id movie =? id0) (_movies db), db).

(** ** Handlers of [main.py] *)

Record PaginatedMovieResponse := mkPage {
  items : list Movie;
  total : Z;
  page : Z;
  size : Z;
  pages : Z
}.

(** [math.ceil(total / size)].  The quotient is a binary64 number; for a
    page size of at most 100, which the handler enforces, and fewer than
    2^46 matches it lies strictly above the integer below the exact quotient
    whenever the division is not exact, so that its ceiling is the exact
    one. *)
Definition ceil_div (total size : Z) : Z :=
  if total mod size =? 0 then total / size else total / size + 1.

Definition get_movies (source : DataSource) (page size : Z)
    (filters : option MovieFilters) (db : MovieDatabase)
    : PaginatedMovieResponse * MovieDatabase :=
  let '((movies, total), db) := get_movies_paginated source page size filters db in
  let pages := if total >? 0 then ceil_div total size else 1 in
  ({| items := movies; total := total; page := page; size := size; pages := pages |},
   db).

(** *** Statistics ([get_stats]) *)

(** A [dict] of counters, in insertion order (the order [items()] lists it):
    [counts[key] = counts.get(key, 0) + 1]. *)
Fixpoint bump {K} (eqb : K -> K -> bool) (key : K) (counts : list (K * Z))
    : list (K * Z) :=
  match counts with
  | [] => [(key, 1)]
  | (k, n) :: rest =>
      if eqb k key then (k, n + 1) :: rest else (k, n) :: bump eqb key rest
  end.

(** [sorted(..., key=lambda x: x[1], reverse=True)]: a stable sort, entries
    with equal counts keep their order. *)
Fixpoint insert_by_count_desc {K} (x : K * Z) (l : list (K * Z)) : list (K * Z) :=
  match l with
  | [] => [x]
  | y :: l' => if snd y >? snd x then y :: insert_by_count_desc x l' else x :: l
  end.

Fixpoint sorted_by_count_desc {K} (l : list (K * Z)) : list (K * Z) :=
  match l with
  | [] => []
  | x :: l' => insert_by_count_desc x (sorted_by_count_desc l')
  end.

(** [sorted(year_counts.items())]: pairs in lexicographic order. *)
Definition pair_lt (a b : Z * Z) : bool :=
  (fst a <? fst b) || ((fst a =? fst b) && (snd a <? snd b)).

Fixpoint insert_pair (x : Z * Z) (l : list (Z * Z)) : list (Z * Z) :=
  match l with
  | [] => [x]
  | y :: l' => if pair_lt y x then y :: insert_pair x l' else x :: l
  end.

Fixpoint sorted_pairs (l : list (Z * Z)) : list (Z * Z) :=
  match l with
  | [] => []
  | x :: l' => insert_pair x (sorted_pairs l')
  end.

(** The two counting loops. *)
Definition count_genres (all_movies : list Movie) : list (string * Z) :=
  fold_left
    (fun genre_counts movie =>
       fold_left
         (fun genre_counts genre =>
            bump String.eqb (dict_get genre "name" "Unknown") genre_counts)
         (genres movie) genre_counts)
    all_movies [].

(** The decade of a record: [None] when it has no release date or when
    [int] raises, in which case the loop goes on to the next record. *)
Definition decade_of (movie : Movie) : option Z :=
  if Py.truthy_str (release_date movie) then
    match release_date movie with
    | Some d =>
        match Py.int (Py.first_segment d) with
        | Some year => Some ((year / 10) * 10)
        | None => None
        end
    | None => None
    end
  else None.

Definition count_decades (all_movies : list Movie) : list (Z * Z) :=
  fold_left
    (fun year_counts movie =>
       match decade_of movie with
       | Some decade => bump Z.eqb decade year_counts
       | None => year_counts
       end)
    all_movies [].

Record Stats := mkStats {
  total_movies : Z;
  favorites_count : Z;
  rated_count : Z;
  top_genres : list (string * Z);
  decade_distribution : list (Z * Z)
}.

Definition is_some {A} (x : option A) : bool :=
  match x with Some _ => true | None => false end.

Definition get_stats (source : DataSource) (db : MovieDatabase)
    : Stats * MovieDatabase :=
  let '((all_movies, total_count), db) :=
    get_movies_paginated source 1 99999 None db in
  let favorites_count := len (List.filter is_favorite all_movies) in
  let rated_count :=
    len (List.filter (fun m => is_some (personal_rating m)) all_movies) in
  let genre_counts := count_genres all_movies in
  let top_genres := Py.slice (sorted_by_count_desc genre_counts) 0 10 in
  let year_counts := count_decades all_movies in
  ({| total_movies := total_count;
      favorites_count := favorites_count;
      rated_count := rated_count;
      top_genres := top_genres;
      decade_distribution := sorted_pairs year_counts |},
   db).

(** *** The other handlers of [main.py] *)

(** What a handler answers: the body of a 200 response, or the status code
    of the [HTTPException] it raises. *)
Inductive Answer (A : Type) :=
| Body (body : A)
| HTTPException (status_code : Z).
Arguments Body {A} body.
Arguments HTTPException {A} status_code.


Definition filters_is_favorite (b : bool) : MovieFilters :=
  {| search := None; f_genres := None; year_from := None; year_to := None;
     rating_from := None; rating_to := None; runtime_from := None;
     runtime_to := None; language := None; f_is_favorite := Some b;
     personal_rating_from := None; personal_rating_to := None |}.

(** The place of the first record with the identifier: the object the loops
    of [get_movie_by_id] and [update_movie] both stop at. *)
Fixpoint index_of (id0 : Z) (movies : list Movie) : nat :=
  match movies with
  | [] => O
  | movie :: rest => if id movie =? id0 then O else S (index_of id0 rest)
  end.

Module Api.


(** [get_favorite_movies] *)
Definition get_favorite_movies (source : DataSource) (page size : Z)
    (db : MovieDatabase) : PaginatedMovieResponse * MovieDatabase :=
  get_movies source page size (Some (filters_is_favorite true)) db.

(** [get_movie]: a record object is always true, so that [not movie] holds
    for [None] only. *)
Definition get_movie (source : DataSource) (id0 : Z) (db : MovieDatabase)
    : Answer Movie * MovieDatabase :=
  let '(movie, db) := get_movie_by_id source id0 db in
  match movie with
  | None => (HTTPException 404, db)
  | Some movie => (Body movie, db)
  end.

(** [toggle_favorite].  [get_movie_by_id] returns the object of the store,
    not a copy, and [update_movie] assigns to that same object: the last
    line reads [movie.is_favorite] after the assignment.  The object is
    followed by its place in [_movies], which [update_movie] keeps. *)
Definition toggle_favorite (source : DataSource) (id0 : Z) (db : MovieDatabase)
    : Answer bool * MovieDatabase :=
  let '(movie, db) := get_movie_by_id source id0 db in
  match movie with
  | None => (HTTPException 404, db)
  | Some movie =>
      let place := index_of id0 (_movies db) in
      let update_command :=
        {| u_title := None; u_overview := None;
           u_is_favorite := Some (negb (is_favorite movie));
           u_personal_rating := None; u_personal_notes := None |} in
      let '(success, db) := update_movie source id0 update_command db in
      if negb success then (HTTPException 500, db)
      else
        let movie := nth place (_movies db) movie in
        (Body (negb (is_favorite movie)), db)
  end.

(** [create_movie] *)
Definition create_movie (source : DataSource) (command : CreateMovieCommand)
    (db : MovieDatabase) : Answer Z * MovieDatabase :=
  let '(movie_id, db) := create_movie source command db in
  (Body movie_id, db).

(** [update_movie]; the body [tt] stands for the empty 200 response. *)
Definition update_movie (source : DataSource) (id0 : Z)
    (command : UpdateMovieCommand) (db : MovieDatabase)
    : Answer unit * MovieDatabase :=
  let '(success, db) := update_movie source id0 command db in
  if negb success then (HTTPException 404, db) else (Body tt, db).

(** [delete_movie] *)
Definition delete_movie (source : DataSource) (id0 : Z) (db : MovieDatabase)
    : Answer unit * MovieDatabase :=
  let '(success, db) := delete_movie source id0 db in
  if negb success then (HTTPException 404, db) else (Body tt, db).

End Api.

(** ** The chunking tool ([chunk_csv.py]) and the chunk files the loader finds *)

Module Chunker.

(** [f"{n:03d}"]: the decimal digits of [n], filled with zeros on the left
    up to three characters, the sign included. *)
Definition decimal (n : Z) : string :=
  NilZero.string_of_uint (N.to_uint (Z.to_N n)).

Fixpoint zeros (count : nat) : string :=
  match count with
  | O => EmptyString
  | S count' => String "0" (zeros count')
  end.

Definition zfill (width : nat) (s : string) : string :=
  (zeros (width - String.length s) ++ s)%string.

Definition format_03d (n : Z) : string :=
  if n <? 0 then String "-" (zfill 2 (decimal (- n))) else zfill 3 (decimal n).

(** [f"movies_chunk_{chunk_number:03d}.csv"] *)
Definition chunk_filename (chunk_number : Z) : string :=
  ("movies_chunk_" ++ format_03d chunk_number ++ ".csv")%string.

(** The input file: missing, or read by [pd.read_csv] in frames of rows; the
    flag tells whether the loop over the frames ends with an exception,
    raised by the reader or by [to_csv], after the frames listed. *)
Inductive CsvInput (R : Type) :=
| NoInput
| Frames (frames : list (list R)) (raises : bool).
Arguments NoInput {R}.
Arguments Frames {R} frames raises.

Record Metadata := mkMetadata {
  original_file : string;
  total_chunks : Z;
  total_rows : Z;
  chunk_size : Z;
  chunk_pattern : string
}.

(** What the tool writes to the output directory. *)
Inductive Write (R : Type) :=
| ToCsv (name : string) (chunk_df : list R)
| JsonDump (name : string) (metadata : Metadata).
Arguments ToCsv {R} name chunk_df.
Arguments JsonDump {R} name metadata.

Definition written_name {R} (w : Write R) : string :=
  match w with
  | ToCsv name _ => name
  | JsonDump name _ => name
  end.

(** The loop [for chunk_df in chunk_reader]:
    [(chunk_number, total_rows)] and the files written so far. *)
Fixpoint write_chunks {R} (frames : list (list R)) (chunk_number total_rows : Z)
    (written : list (Write R)) : Z * Z * list (Write R) :=
  match frames with
  | [] => (chunk_number, total_rows, written)
  | chunk_df :: frames' =>
      let chunk_number := chunk_number + 1 in
      let chunk_filename := chunk_filename chunk_number in
      write_chunks frames' chunk_number (total_rows + len chunk_df)
        (written ++ [ToCsv chunk_filename chunk_df])
  end.

(** [chunk_csv_file]: the value returned and the files written, in order.
    The average [total_rows // chunk_number] is computed for the report
    before the metadata are written: with no frame it raises
    [ZeroDivisionError], which the [except] clause turns into [False]. *)
Definition chunk_csv_file {R} (input : CsvInput R) (input_name : string)
    (chunk_size : Z) : bool * list (Write R) :=
  match input with
  | NoInput => (false, [])
  | Frames frames raises =>
      let '(chunk_number, total_rows, written) := write_chunks frames 0 0 [] in
      if raises then (false, written)
      else if chunk_number =? 0 then (false, written)
      else
        let metadata :=
          {| original_file := input_name;
             total_chunks := chunk_number;
             total_rows := total_rows;
             chunk_size := chunk_size;
             chunk_pattern := "movies_chunk_*.csv" |} in
        (true, written ++ [JsonDump "metadata.json" metadata])
  end.

(** [name] matches the pattern ["movies_chunk_*.csv"]. *)
Definition glob_matches (name : string) : bool :=
  String.prefix "movies_chunk_" name
  && (17 <=? String.length name)%nat
  && String.eqb (String.substring (String.length name - 4) 4 name) ".csv".

(** [sorted(...)] on paths of one directory: by name, in the order of the
    character codes. *)
Fixpoint insert_by_name {C} (x : string * C) (l : list (string * C))
    : list (string * C) :=
  match l with
  | [] => [x]
  | y :: l' => if String.ltb (fst y) (fst x) then y :: insert_by_name x l' else x :: l
  end.

Fixpoint sorted_by_name {C} (l : list (string * C)) : list (string * C) :=
  match l with
  | [] => []
  | x :: l' => insert_by_name x (sorted_by_name l')
  end.

(** [sorted(list(self.data_source.glob("movies_chunk_*.csv")))] of
    [_load_from_chunks], on a directory listed in any order. *)
Definition sorted_glob {C} (listing : list (string * C)) : list (string * C) :=
  sorted_by_name (List.filter (fun file => glob_matches (fst file)) listing).

End Chunker.

(** * Vocabulary of the properties *)

(** ** Pages and counters *)

(** The page [p] (counted from 1) of [l], [n] items a page. *)
Definition page_of {A} (n : nat) (l : list A) (p : nat) : list A :=
  firstn n (skipn ((p - 1) * n) l).





(** ** Filter criteria *)

(** What a given bound asks of a record; an absent bound asks nothing. *)
Definition asks {A} (bound : option A) (keeps : A -> Movie -> bool)
    (movie : Movie) : bool :=
  match bound with
  | Some b => keeps b movie
  | None => true
  end.

Definition guarded (active : bool) (test : Movie -> bool) (movie : Movie) : bool :=
  if active then test movie else true.

(** The conjunction of the predicate groups, in the order the code applies
    them. *)
Definition keeps (f : MovieFilters) (movie : Movie) : bool :=
  guarded (Py.truthy_str (search f))
    (asks (search f) (fun s => search_keeps (Py.lower s))) movie
  && guarded (Py.truthy_list (f_genres f)) (asks (f_genres f) genres_keeps) movie
  && guarded (Py.truthy_int (year_from f) || Py.truthy_int (year_to f))
       (fun movie => _check_year_filter (release_date movie) (year_from f) (year_to f))
       movie
  && asks (rating_from f) (fun b movie => float_at_least (vote_average movie) b) movie
  && asks (rating_to f) (fun b movie => float_at_most (vote_average movie) b) movie
  && asks (runtime_from f) (fun b movie => int_at_least (runtime movie) b) movie
  && asks (runtime_to f) (fun b movie => int_at_most (runtime movie) b) movie
  && guarded (Py.truthy_str (language f)) (asks (language f) language_keeps) movie
  && asks (f_is_favorite f) (fun b movie => Bool.eqb (is_favorite movie) b) movie
  && asks (personal_rating_from f)
       (fun b movie => float_at_least (personal_rating movie) b) movie
  && asks (personal_rating_to f)
       (fun b movie => float_at_most (personal_rating movie) b) movie.

(** Order-preserving selection: [l1] is [l2] with some elements left out. *)
Inductive subsequence {A} : list A -> list A -> Prop :=
| subseq_nil : subsequence [] []
| subseq_skip x l1 l2 : subsequence l1 l2 -> subsequence l1 (x :: l2)
| subseq_keep x l1 l2 : subsequence l1 l2 -> subsequence (x :: l1) (x :: l2).

(** A group is active when the code runs its list comprehension. *)
Definition rating_active (f : MovieFilters) : bool :=
  is_some (rating_from f) || is_some (rating_to f).

Definition runtime_active (f : MovieFilters) : bool :=
  is_some (runtime_from f) || is_some (runtime_to f).

Definition personal_rating_active (f : MovieFilters) : bool :=
  is_some (personal_rating_from f) || is_some (personal_rating_to f).

Definition year_active (f : MovieFilters) : bool :=
  Py.truthy_int (year_from f) || Py.truthy_int (year_to f).

Definition no_active_group (f : MovieFilters) : bool :=
  negb (Py.truthy_str (search f))
  && negb (Py.truthy_list (f_genres f))
  && negb (year_active f)
  && negb (rating_active f)
  && negb (runtime_active f)
  && negb (Py.truthy_str (language f))
  && negb (is_some (f_is_favorite f))
  && negb (personal_rating_active f).

(** ** Update requests *)

(** The fields [update_movie] never assigns. *)
Definition same_catalogue_fields (m m' : Movie) : Prop :=
  id m' = id m
  /\ genres m' = genres m
  /\ keywords m' = keywords m
  /\ tagline m' = tagline m
  /\ cast m' = cast m
  /\ crew m' = crew m
  /\ production_companies m' = production_companies m
  /\ production_countries m' = production_countries m
  /\ spoken_languages m' = spoken_languages m
  /\ original_language m' = original_language m
  /\ original_title m' = original_title m
  /\ release_date m' = release_date m
  /\ runtime m' = runtime m
  /\ vote_average m' = vote_average m
  /\ vote_count m' = vote_count m
  /\ popularity m' = popularity m.

(** [UpdateMovieCommand(is_favorite=b)] *)
Definition only_favorite (b : bool) : UpdateMovieCommand :=
  {| u_title := None; u_overview := None; u_is_favorite := Some b;
     u_personal_rating := None; u_personal_notes := None |}.

(** Modelled from the spec: [UpdateMovieCommand] is declared in [models.py],
    which is not part of the sources at hand.  A request may leave a field
    out, give it as null, or give it a value; the command has one nullable
    attribute per field (section 3: only non-null fields overwrite; the
    handler [toggle_favorite] builds a command from [is_favorite] alone), so
    that a field left out and a field given as null both reach
    [update_movie] as [None]. *)
Inductive Provided (A : Type) :=
| Omitted
| Null
| Given (v : A).
Arguments Omitted {A}.
Arguments Null {A}.
Arguments Given {A} v.

Record UpdateRequest := mkRequest {
  r_title : Provided string;
  r_overview : Provided string;
  r_is_favorite : Provided bool;
  r_personal_rating : Provided float;
  r_personal_notes : Provided string
}.

Definition nullable {A} (field : Provided A) : option A :=
  match field with
  | Given v => Some v
  | Omitted | Null => None
  end.

Definition command_of (r : UpdateRequest) : UpdateMovieCommand :=
  {| u_title := nullable (r_title r);
     u_overview := nullable (r_overview r);
     u_is_favorite := nullable (r_is_favorite r);
     u_personal_rating := nullable (r_personal_rating r);
     u_personal_notes := nullable (r_personal_notes r) |}.

Definition unset {A} (field : Provided A) : Prop := field = Omitted \/ field = Null.

(** ** Sources of the lazy load *)

(** A source nothing can be loaded from: the directory or the file is
    missing or cannot be reached, the directory has no chunk file, or no
    encoding parses the sample of the file. *)
Definition unavailable (source : DataSource) : Prop :=
  match source with
  | Chunks DirFault | Chunks DirMissing | Chunks (DirFiles []) => True
  | Chunks (DirFiles (_ :: _)) => False
  | SingleCsv CsvFault | SingleCsv CsvMissing => True
  | SingleCsv (CsvFile sample_parses _) => find sample_parses encodings = None
  end.

(** ** Identifiers and sequences of operations *)

(** A row is faithful when the record [Movie.from_csv_row] builds from it
    bears the identifier it was given. *)
Definition faithful (row : Row) : Prop :=
  forall i m, row i = Some m -> id m = i.

Definition faithful_file (file : ChunkFile) : Prop :=
  match file with
  | Readable rows => Forall faithful rows
  | Unreadable => True
  end.

Definition faithful_dir (dir : ChunkDir) : Prop :=
  match dir with
  | DirFiles chunk_files => Forall faithful_file chunk_files
  | DirFault | DirMissing => True
  end.

(** A row [Movie.from_csv_row] never rejects, and which bears the identifier
    it is given. *)
Definition always_accepted (row : Row) : Prop :=
  forall i, exists m, row i = Some m /\ id m = i.

Fixpoint count_from (first : Z) (n : nat) : list Z :=
  match n with
  | O => []
  | S n' => first :: count_from (first + 1) n'
  end.

Definition numbered (movies : list Movie) : Prop :=
  map id movies = count_from 1 (List.length movies).

(** The state the operations keep: loaded, identifiers pairwise distinct and
    all below the counter. *)
Record consistent (db : MovieDatabase) : Prop := mkConsistent {
  is_loaded : _loaded db = true;
  ids_distinct : NoDup (map id (_movies db));
  ids_below_counter : Forall (fun i => i < _next_id db) (map id (_movies db))
}.

Inductive Operation :=
| Create (command : CreateMovieCommand)
| Update (id0 : Z) (command : UpdateMovieCommand)
| Delete (id0 : Z).

(** One operation; the identifier is the one a create returns. *)
Definition perform (source : DataSource) (op : Operation) (db : MovieDatabase)
    : option Z * MovieDatabase :=
  match op with
  | Create command =>
      let '(new_id, db') := create_movie source command db in (Some new_id, db')
  | Update id0 command => (None, snd (update_movie source id0 command db))
  | Delete id0 => (None, snd (delete_movie source id0 db))
  end.

(** A sequence of operations; the list is that of the identifiers the
    creates returned, in order. *)
Fixpoint run (source : DataSource) (ops : list Operation) (db : MovieDatabase)
    : list Z * MovieDatabase :=
  match ops with
  | [] => ([], db)
  | op :: ops' =>
      let '(returned, db1) := perform source op db in
      let '(created, db2) := run source ops' db1 in
      (match returned with
       | Some new_id => new_id :: created
       | None => created
       end, db2)
  end.

(** ** Orders and keys of the statistics *)





(** ** Records made by create *)

(** [m] has the fields of [command], is no favourite and has no personal
    rating and no personal notes. *)
Definition built_from (command : CreateMovieCommand) (m : Movie) : Prop :=
  title m = c_title command
  /\ overview m = c_overview command
  /\ genres m = c_genres command
  /\ keywords m = c_keywords command
  /\ tagline m = c_tagline command
  /\ cast m = c_cast command
  /\ crew m = c_crew command
  /\ production_companies m = c_production_companies command
  /\ production_countries m = c_production_countries command
  /\ spoken_languages m = c_spoken_languages command
  /\ original_language m = c_original_language command
  /\ original_title m = c_original_title command
  /\ release_date m = c_release_date command
  /\ runtime m = c_runtime command
  /\ vote_average m = c_vote_average command
  /\ vote_count m = c_vote_count command
  /\ popularity m = c_popularity command
  /\ is_favorite m = false
  /\ personal_rating m = None
  /\ personal_notes m = None.

(** ** What the criteria ask of a record, group by group *)








(** The criteria as one test; no criteria keep every record. *)
Definition keeps_all (filters : option MovieFilters) (m : Movie) : bool :=
  match filters with
  | Some f => keeps f m
  | None => true
  end.

(** ** Chunk files *)

(** The chunk files of [frames], numbered from [first], in order. *)
Fixpoint chunk_writes_from {R} (first : Z) (frames : list (list R))
    : list (Chunker.Write R) :=
  match frames with
  | [] => []
  | chunk_df :: frames' =>
      Chunker.ToCsv (Chunker.chunk_filename first) chunk_df
      :: chunk_writes_from (first + 1) frames'
  end.

(** The files of a directory the writes were made to: name and content. *)
Definition as_files {R} (writes : list (Chunker.Write R))
    : list (string * Chunker.Write R) :=
  map (fun w => (Chunker.written_name w, w)) writes.

(** The orders of file names. *)
Definition name_le {C} (a b : string * C) : Prop := String.ltb (fst b) (fst a) = false.

Definition name_lt {C} (a b : string * C) : Prop := String.ltb (fst a) (fst b) = true.

(** The number a field of digits stands for. *)
Definition number_of (digits : string) : option N :=
  option_map N.of_uint (NilEmpty.uint_of_string digits).

(** ** Rows and the records made of them *)

(** The rows of the chunk files that can be read, in order. *)
Definition rows_of (chunk_files : list ChunkFile) : list Row :=
  flat_map (fun file => match file with
                        | Readable rows => rows
                        | Unreadable => []
                        end)
           chunk_files.

(** The records of the rows that are accepted; a row is given the number of
    the records before it, counted from [next]. *)
Fixpoint parsed_from (next : Z) (rows : list Row) : list Movie :=
  match rows with
  | [] => []
  | row :: rows' =>
      match row next with
      | Some m => m :: parsed_from (next + 1) rows'
      | None => parsed_from next rows'
      end
  end.

(** A row [Movie.from_csv_row] rejects under no identifier. *)
Definition never_rejected (row : Row) : Prop := forall i, row i <> None.


(** ** Concrete records and sources used in the examples *)

Definition blank (i : Z) : Movie :=
  {| id := i; title := None; overview := None; genres := []; keywords := [];
     tagline := None; cast := []; crew := []; production_companies := [];
     production_countries := []; spoken_languages := [];
     original_language := None; original_title := None; release_date := None;
     runtime := None; vote_average := None; vote_count := None;
     popularity := None; is_favorite := false; personal_rating := None;
     personal_notes := None |}.

Definition no_filters : MovieFilters :=
  {| search := None; f_genres := None; year_from := None; year_to := None;
     rating_from := None; rating_to := None; runtime_from := None;
     runtime_to := None; language := None; f_is_favorite := None;
     personal_rating_from := None; personal_rating_to := None |}.

Definition drama (i : Z) : Movie :=
  {| id := i; title := Some "Heat"; overview := None;
     genres := [[("id", "18"); ("name", "Drama")]]; keywords := [];
     tagline := None; cast := []; crew := []; production_companies := [];
     production_countries := []; spoken_languages := [];
     original_language := Some "en"; original_title := None;
     release_date := Some "1995-12-15";
     runtime := Some 170; vote_average := Some 7.5%float; vote_count := None;
     popularity := None; is_favorite := true; personal_rating := Some 9%float;
     personal_notes := None |}.

Fixpoint dramas_from (first : Z) (count : nat) : list Movie :=
  match count with
  | O => []
  | S count' => drama first :: dramas_from (first + 1) count'
  end.

Definition big_store : MovieDatabase :=
  {| _movies := dramas_from 1 (Z.to_nat 100000);
     _next_id := 100001;
     _loaded := true |}.

Definition rating_from_zero : MovieFilters :=
  {| search := None; f_genres := None; year_from := None; year_to := None;
     rating_from := Some 0%float; rating_to := None; runtime_from := None;
     runtime_to := None; language := None; f_is_favorite := None;
     personal_rating_from := None; personal_rating_to := None |}.

Definition unrated (i : Z) : Movie :=
  {| id := i; title := Some "Untitled"; overview := None; genres := [];
     keywords := []; tagline := None; cast := []; crew := [];
     production_companies := []; production_countries := [];
     spoken_languages := []; original_language := None; original_title := None;
     release_date := None; runtime := Some 0; vote_average := Some 0%float;
     vote_count := Some 0; popularity := None; is_favorite := false;
     personal_rating := None; personal_notes := None |}.

Definition runtime_to_100 : MovieFilters :=
  {| search := None; f_genres := None; year_from := None; year_to := None;
     rating_from := None; rating_to := None; runtime_from := None;
     runtime_to := Some 100; language := None; f_is_favorite := None;
     personal_rating_from := None; personal_rating_to := None |}.

Definition dated (i : Z) (date : option string) : Movie :=
  {| id := i; title := Some "Untitled"; overview := None; genres := [];
     keywords := []; tagline := None; cast := []; crew := [];
     production_companies := []; production_countries := [];
     spoken_languages := []; original_language := None; original_title := None;
     release_date := date; runtime := None; vote_average := None;
     vote_count := None; popularity := None; is_favorite := false;
     personal_rating := None; personal_notes := None |}.

Definition years (from to : option Z) : MovieFilters :=
  {| search := None; f_genres := None; year_from := from; year_to := to;
     rating_from := None; rating_to := None; runtime_from := None;
     runtime_to := None; language := None; f_is_favorite := None;
     personal_rating_from := None; personal_rating_to := None |}.

(** A single CSV file none of whose samples parses: [_load_from_csv_chunked]
    raises "Could not find compatible encoding". *)
Definition undecodable_csv : DataSource :=
  SingleCsv (CsvFile (fun _ => false) (fun _ => [])).

Definition two_records : MovieDatabase :=
  {| _movies := [drama 1; unrated 2]; _next_id := 3; _loaded := true |}.

(** A request that gives [personal_rating] as null and nothing else. *)
Definition clear_rating : UpdateRequest :=
  {| r_title := Omitted; r_overview := Omitted; r_is_favorite := Omitted;
     r_personal_rating := Null; r_personal_notes := Omitted |}.

Definition rate (v : float) : UpdateRequest :=
  {| r_title := Omitted; r_overview := Omitted; r_is_favorite := Omitted;
     r_personal_rating := Given v; r_personal_notes := Omitted |}.

(** A row [Movie.from_csv_row] rejects, and one it makes a record of. *)
Definition malformed_row : Row := fun _ => None.

Definition plain_row : Row := fun i => Some (blank i).

(** A single CSV file read in one frame of three rows, the first of which
    [Movie.from_csv_row] rejects. *)
Definition csv_with_skipped_row : DataSource :=
  SingleCsv (CsvFile (fun _ => true)
               (fun _ => [[malformed_row; plain_row; plain_row]])).

(** The same rows followed by a second frame of one row. *)
Definition csv_with_two_frames : DataSource :=
  SingleCsv (CsvFile (fun _ => true)
               (fun _ => [[malformed_row; plain_row; plain_row]; [plain_row]])).

Definition test_movie : CreateMovieCommand :=
  {| c_title := Some "Test Movie";
     c_overview := Some "A test movie for CRUD testing";
     c_genres := [[("name", "Test")]]; c_keywords := []; c_tagline := None;
     c_cast := []; c_crew := []; c_production_companies := [];
     c_production_countries := []; c_spoken_languages := [];
     c_original_language := None; c_original_title := None;
     c_release_date := Some "2024-01-01"; c_runtime := None;
     c_vote_average := None; c_vote_count := None; c_popularity := None |}.

Definition three_chunk_rows : ChunkDir :=
  DirFiles [Readable [plain_row; malformed_row; plain_row]; Unreadable;
            Readable [plain_row]].

(** A directory with two chunk files and the metadata, listed backwards. *)
Definition two_chunks_listing : list (string * Chunker.Write Z) :=
  [("metadata.json",
    Chunker.JsonDump "metadata.json"
      {| Chunker.original_file := "movies.csv"; Chunker.total_chunks := 2;
         Chunker.total_rows := 3; Chunker.chunk_size := 2;
         Chunker.chunk_pattern := "movies_chunk_*.csv" |});
   ("movies_chunk_002.csv", Chunker.ToCsv "movies_chunk_002.csv" [3]);
   ("movies_chunk_001.csv", Chunker.ToCsv "movies_chunk_001.csv" [1; 2])].

(** * Properties *)

(** ** Python primitives *)

Example int_examples :
  Py.int "2022" = Some 2022 /\ Py.int " 1_999 " = Some 1999 /\
  Py.int "+7" = Some 7 /\ Py.int "" = None /\ Py.int "20x2" = None /\
  Py.int "1__0" = None /\ Py.int "_1" = None /\ Py.int "1_" = None.
Proof. repeat split; reflexivity. Qed.

Example first_segment_examples :
  Py.first_segment "2022-05-01" = "2022" /\ Py.first_segment "-5-01" = "" /\
  Py.first_segment "n/a" = "n/a".
Proof. repeat split; reflexivity. Qed.

Example slice_examples :
  Py.slice [1; 2; 3; 4; 5] 2 4 = [3; 4] /\ Py.slice [1; 2; 3] 3 6 = [] /\
  Py.slice [1; 2; 3] 7 9 = [] /\ Py.slice [1; 2; 3] (-2) 5 = [2; 3].
Proof. repeat split; reflexivity. Qed.

(** ** The filter engine as one predicate *)

Section FilterFacts.

Variable A : Type.

Lemma filter_true (l : list A) : List.filter (fun _ => true) l = l.
Proof. induction l as [|x l IH]; simpl; congruence. Qed.

Lemma filter_twice (p q : A -> bool) (l : list A) :
  List.filter q (List.filter p l) = List.filter (fun x => p x && q x) l.
Proof.
  induction l as [|x l IH]; simpl; [reflexivity|].
  destruct (p x); simpl; [destruct (q x)|]; rewrite IH; reflexivity.
Qed.

Lemma filter_subsequence (p : A -> bool) (l : list A) :
  subsequence (List.filter p l) l.
Proof.
  induction l as [|x l IH]; simpl; [constructor|].
  destruct (p x); constructor; exact IH.
Qed.

Lemma subsequence_refl (l : list A) : subsequence l l.
Proof. induction l; constructor; assumption. Qed.

End FilterFacts.

Lemma when_given_filter {B} (bound : option B) (k : B -> Movie -> bool) l :
  when_given bound k l = List.filter (asks bound k) l.
Proof.
  destruct bound; simpl; [reflexivity|].
  symmetry; apply filter_true.
Qed.

Lemma guarded_filter (active : bool) (test : Movie -> bool) l :
  (if active then List.filter test l else l) = List.filter (guarded active test) l.
Proof.
  destruct active; unfold guarded; [reflexivity|].
  symmetry; apply filter_true.
Qed.

(** [_apply_filters] keeps exactly the records that pass every group. *)
Lemma _apply_filters_keeps (movies : list Movie) (f : MovieFilters) :
  _apply_filters movies (Some f) = List.filter (keeps f) movies.
Proof.
  unfold _apply_filters; cbv zeta.
  rewrite !when_given_filter.
  rewrite !guarded_filter.
  rewrite !filter_twice.
  apply filter_ext; intro movie.
  unfold keeps; rewrite !andb_assoc; reflexivity.
Qed.

Lemma kept_passes (movies : list Movie) (f : MovieFilters) (m : Movie) :
  In m (_apply_filters movies (Some f)) <-> In m movies /\ keeps f m = true.
Proof. rewrite _apply_filters_keeps. apply filter_In. Qed.

Example no_filters_inactive : no_active_group no_filters = true.
Proof. reflexivity. Qed.

(** From the two tests of a numeric group, one of which is run, the truth
    value of the attribute. *)
Ltac bound_gives_value lower upper Hlower Hupper Hactive :=
  destruct lower, upper; simpl in Hactive; try discriminate;
  try (apply andb_true_iff in Hlower; tauto);
  apply andb_true_iff in Hupper; tauto.

(** Every record that passes an active numeric group has a value for the
    bounded attribute, and that value is not zero. *)
Lemma kept_values_truthy (f : MovieFilters) (m : Movie) :
  keeps f m = true ->
  (rating_active f = true -> Py.truthy_float (vote_average m) = true) /\
  (runtime_active f = true -> Py.truthy_int (runtime m) = true) /\
  (personal_rating_active f = true -> Py.truthy_float (personal_rating m) = true).
Proof.
  unfold keeps, rating_active, runtime_active, personal_rating_active.
  rewrite !andb_true_iff.
  intros [[[[[[[[[[_ _] _] Hrf] Hrt] Htf] Htt] _] _] Hpf] Hpt].
  unfold asks, float_at_least, float_at_most, int_at_least, int_at_most in *.
  repeat split; intro Hact.
  - bound_gives_value (rating_from f) (rating_to f) Hrf Hrt Hact.
  - bound_gives_value (runtime_from f) (runtime_to f) Htf Htt Hact.
  - bound_gives_value (personal_rating_from f) (personal_rating_to f) Hpf Hpt Hact.
Qed.

Lemma inactive_keeps_all (f : MovieFilters) (m : Movie) :
  no_active_group f = true -> keeps f m = true.
Proof.
  unfold no_active_group, year_active, rating_active, runtime_active,
    personal_rating_active.
  intro Hoff.
  rewrite !andb_true_iff, !negb_true_iff, !orb_false_iff in Hoff.
  destruct Hoff as [[[[[[[Hs Hg] Hy] [Hrf Hrt]] [Htf Htt]] Hl] Hfav] [Hpf Hpt]].
  unfold keeps.
  rewrite Hs, Hg, Hl.
  destruct Hy as [Hyf Hyt]; rewrite Hyf, Hyt.
  destruct (rating_from f); [discriminate|].
  destruct (rating_to f); [discriminate|].
  destruct (runtime_from f); [discriminate|].
  destruct (runtime_to f); [discriminate|].
  destruct (f_is_favorite f); [discriminate|].
  destruct (personal_rating_from f); [discriminate|].
  destruct (personal_rating_to f); [discriminate|].
  reflexivity.
Qed.

(** ** Properties of the filter engine *)

(** C9: with no criteria, or with criteria none of whose predicate groups is
    active, [_apply_filters] returns its input list, same contents in the same
    order; and whatever the criteria, its result is the input list with some
    records left out, the others in their original relative order. *)
Theorem apply_filters_identity_and_order
    (movies : list Movie) (filters : option MovieFilters) :
  (match filters with
   | None => True
   | Some f => no_active_group f = true
   end -> _apply_filters movies filters = movies)
  /\ subsequence (_apply_filters movies filters) movies.
Proof.
  destruct filters as [f|].
  - rewrite _apply_filters_keeps. split.
    + intro Hoff.
      rewrite (filter_ext (keeps f) (fun _ => true)).
      * apply filter_true.
      * intro m. apply inactive_keeps_all, Hoff.
    + apply filter_subsequence.
  - simpl. split; [reflexivity | apply subsequence_refl].
Qed.

Lemma apply_filters_identity_and_order_witness :
  _apply_filters [drama 1; blank 2; drama 3] (Some no_filters)
  = [drama 1; blank 2; drama 3].
Proof.
  apply (proj1 (apply_filters_identity_and_order
                  [drama 1; blank 2; drama 3] (Some no_filters))).
  reflexivity.
Defined.

(** C4: a record with no value for an attribute (vote average, runtime,
    personal rating) is left out by [_apply_filters] as soon as a lower or an
    upper bound on that attribute is given, whatever the bound. *)
Theorem absent_value_fails_active_bound
    (movies : list Movie) (f : MovieFilters) (m : Movie) :
  (rating_active f = true /\ vote_average m = None)
  \/ (runtime_active f = true /\ runtime m = None)
  \/ (personal_rating_active f = true /\ personal_rating m = None) ->
  ~ In m (_apply_filters movies (Some f)).
Proof.
  intros Habsent Hin.
  apply kept_passes in Hin. destruct Hin as [_ Hk].
  destruct (kept_values_truthy f m Hk) as (Hr & Ht & Hp).
  destruct Habsent as [[Ha Hv] | [[Ha Hv] | [Ha Hv]]].
  - specialize (Hr Ha). rewrite Hv in Hr. discriminate.
  - specialize (Ht Ha). rewrite Hv in Ht. discriminate.
  - specialize (Hp Ha). rewrite Hv in Hp. discriminate.
Qed.

Lemma absent_value_fails_active_bound_witness :
  ~ In (blank 2) (_apply_filters [drama 1; blank 2] (Some rating_from_zero)).
Proof.
  apply (absent_value_fails_active_bound [drama 1; blank 2] rating_from_zero (blank 2)).
  left. split; reflexivity.
Defined.

(** C10: a record whose value for an attribute is zero ([0], [0.0] or [-0.0])
    is left out by [_apply_filters] as soon as a lower or an upper bound on
    that attribute is given, also when zero lies within the bound. *)
Theorem zero_value_fails_active_bound
    (movies : list Movie) (f : MovieFilters) (m : Movie) :
  (rating_active f = true /\
   exists v, vote_average m = Some v /\ PrimFloat.eqb v 0 = true)
  \/ (runtime_active f = true /\ runtime m = Some 0)
  \/ (personal_rating_active f = true /\
      exists v, personal_rating m = Some v /\ PrimFloat.eqb v 0 = true) ->
  ~ In m (_apply_filters movies (Some f)).
Proof.
  intros Hzero Hin.
  apply kept_passes in Hin. destruct Hin as [_ Hk].
  destruct (kept_values_truthy f m Hk) as (Hr & Ht & Hp).
  destruct Hzero as [[Ha (v & Hv & Hz)] | [[Ha Hv] | [Ha (v & Hv & Hz)]]].
  - specialize (Hr Ha). rewrite Hv in Hr. simpl in Hr. rewrite Hz in Hr. discriminate.
  - specialize (Ht Ha). rewrite Hv in Ht. discriminate.
  - specialize (Hp Ha). rewrite Hv in Hp. simpl in Hp. rewrite Hz in Hp. discriminate.
Qed.

Lemma zero_value_fails_active_bound_witness :
  ~ In (unrated 2) (_apply_filters [drama 1; unrated 2] (Some rating_from_zero))
  /\ ~ In (unrated 2) (_apply_filters [drama 1; unrated 2] (Some runtime_to_100)).
Proof.
  split.
  - apply (zero_value_fails_active_bound [drama 1; unrated 2] rating_from_zero (unrated 2)).
    left. split; [reflexivity|]. exists 0%float. split; reflexivity.
  - apply (zero_value_fails_active_bound [drama 1; unrated 2] runtime_to_100 (unrated 2)).
    right; left. split; reflexivity.
Defined.

(** *** Year bounds *)

(** The example of the specification: 2020 to 2024 keeps a 2022 release and
    leaves out an empty, an absent and a malformed date. *)
Example year_range_example :
  _apply_filters
    [dated 1 (Some "2022-05-01"); dated 2 (Some ""); dated 3 None;
     dated 4 (Some "May 2022"); dated 5 (Some "2019-12-31");
     dated 6 (Some "2025")]
    (Some (years (Some 2020) (Some 2024)))
  = [dated 1 (Some "2022-05-01")].
Proof. reflexivity. Qed.

(** With bounds other than zero, [_check_year_filter] accepts exactly the
    dates whose leading segment parses to a year within the given bounds. *)
Lemma _check_year_filter_nonzero (date : option string) (year_from year_to : option Z) :
  year_from <> Some 0 -> year_to <> Some 0 ->
  (_check_year_filter date year_from year_to = true <->
   exists d year,
     date = Some d /\ Py.int (Py.first_segment d) = Some year /\
     (forall y, year_from = Some y -> y <= year) /\
     (forall y, year_to = Some y -> year <= y)).
Proof.
  intros Hf Ht. unfold _check_year_filter. split.
  - destruct date as [d|]; simpl; [|discriminate].
    destruct (String.eqb d ""); simpl; [discriminate|].
    destruct (Py.int (Py.first_segment d)) as [year|] eqn:Hint; [|discriminate].
    intro H. exists d, year.
    split; [reflexivity|]. split; [exact Hint|]. split.
    + intros y ->. simpl in H.
      destruct (y =? 0) eqn:Ey; [apply Z.eqb_eq in Ey; congruence|].
      simpl in H. destruct (year <? y) eqn:El; [discriminate|].
      apply Z.ltb_ge in El. exact El.
    + intros y ->.
      destruct (Py.truthy_int year_from &&
                match year_from with Some y0 => year <? y0 | None => false end);
        [discriminate|].
      simpl in H.
      destruct (y =? 0) eqn:Ey; [apply Z.eqb_eq in Ey; congruence|].
      simpl in H. destruct (year >? y) eqn:El; [discriminate|].
      rewrite Z.gtb_ltb in El. apply Z.ltb_ge in El. exact El.
  - intros (d & year & -> & Hint & Hlo & Hhi).
    assert (Hd : String.eqb d "" = false).
    { destruct d; [discriminate Hint | reflexivity]. }
    simpl. rewrite Hd. simpl. rewrite Hint.
    assert (Hl : Py.truthy_int year_from &&
                 match year_from with Some y => year <? y | None => false end = false).
    { destruct year_from as [y|]; [|reflexivity].
      specialize (Hlo y eq_refl).
      apply andb_false_iff. right. apply Z.ltb_ge. exact Hlo. }
    rewrite Hl.
    assert (Hu : Py.truthy_int year_to &&
                 match year_to with Some y => year >? y | None => false end = false).
    { destruct year_to as [y|]; [|reflexivity].
      specialize (Hhi y eq_refl).
      apply andb_false_iff. right. rewrite Z.gtb_ltb. apply Z.ltb_ge. exact Hhi. }
    rewrite Hu. reflexivity.
Qed.

(** C5, at the inputs where the code departs from it: an upper bound of 0 is
    taken for no bound at all.  Given alone it filters nothing, so that
    records with an empty or absent date stay in; given with a lower bound of
    2020 it lets a 2022 release through although 2022 exceeds it. *)
Theorem year_bound_zero_is_ignored :
  _apply_filters
    [dated 1 (Some ""); dated 2 None; dated 3 (Some "2022-05-01")]
    (Some (years None (Some 0)))
  = [dated 1 (Some ""); dated 2 None; dated 3 (Some "2022-05-01")]
  /\ _apply_filters [dated 3 (Some "2022-05-01")] (Some (years (Some 2020) (Some 0)))
     = [dated 3 (Some "2022-05-01")]
  /\ _check_year_filter (Some "2022-05-01") (Some 2020) (Some 0) = true.
Proof. repeat split; reflexivity. Qed.

(** ** The lazy load *)

Lemma _ensure_loaded_sets_flag (source : DataSource) (db : MovieDatabase) :
  _loaded (_ensure_loaded source db) = true.
Proof.
  unfold _ensure_loaded.
  destruct (_loaded db) eqn:Hl; [exact Hl|].
  destruct (bulk_load source db); reflexivity.
Qed.

Lemma _ensure_loaded_when_loaded (source : DataSource) (db : MovieDatabase) :
  _loaded db = true -> _ensure_loaded source db = db.
Proof. intro Hl. unfold _ensure_loaded. rewrite Hl. reflexivity. Qed.

Lemma _ensure_loaded_again (source source' : DataSource) (db : MovieDatabase) :
  _ensure_loaded source' (_ensure_loaded source db) = _ensure_loaded source db.
Proof. apply _ensure_loaded_when_loaded, _ensure_loaded_sets_flag. Qed.

(** X20: whatever makes the source unavailable, a new store comes out of the
    first access loaded and without records. *)
Lemma unavailable_source_loads_nothing (source : DataSource) :
  unavailable source ->
  _ensure_loaded source init = {| _movies := []; _next_id := 1; _loaded := true |}.
Proof.
  destruct source as [[| |[|file files]] | [| |sample_parses chunk_reader]];
    simpl; intro Hun; try reflexivity; try contradiction.
  unfold _ensure_loaded. simpl. rewrite Hun. reflexivity.
Qed.

(** C8: after [_ensure_loaded] the store is marked as loaded, and a further
    call changes nothing, whatever the data source has become in between: the
    bulk load is attempted at most once.  When that one attempt raises, the
    store is left marked as loaded with no record, and the read operations
    that follow return an empty page with a total of zero, no record for any
    identifier and empty statistics, as ordinary results. *)
Theorem ensure_loaded_once
    (source source' : DataSource) (db : MovieDatabase) :
  let db1 := _ensure_loaded source db in
  _loaded db1 = true
  /\ _ensure_loaded source' db1 = db1
  /\ (_loaded db = false -> bulk_load source db = Raise ->
      _movies db1 = []
      /\ (forall page size filters,
            get_movies_paginated source' page size filters db1 = (([], 0), db1))
      /\ (forall id0, get_movie_by_id source' id0 db1 = (None, db1))
      /\ get_stats source' db1
         = ({| total_movies := 0; favorites_count := 0; rated_count := 0;
               top_genres := []; decade_distribution := [] |}, db1)).
Proof.
  intro db1.
  assert (Hflag : _loaded db1 = true) by apply _ensure_loaded_sets_flag.
  assert (Hagain : _ensure_loaded source' db1 = db1) by apply _ensure_loaded_again.
  split; [exact Hflag|]. split; [exact Hagain|].
  intros Hfresh Hraise.
  assert (Hempty : _movies db1 = []).
  { unfold db1, _ensure_loaded. rewrite Hfresh, Hraise. reflexivity. }
  split; [exact Hempty|].
  assert (Hpage : forall page size filters,
            get_movies_paginated source' page size filters db1 = (([], 0), db1)).
  { intros page size filters. unfold get_movies_paginated.
    rewrite Hagain, Hempty.
    assert (Hnone : _apply_filters [] filters = []).
    { destruct filters as [f|]; [|reflexivity].
      rewrite _apply_filters_keeps. reflexivity. }
    rewrite Hnone. unfold Py.slice. rewrite skipn_nil, firstn_nil. reflexivity. }
  split; [exact Hpage|]. split.
  - intro id0. unfold get_movie_by_id. rewrite Hagain, Hempty. reflexivity.
  - unfold get_stats. rewrite Hpage. reflexivity.
Qed.

Lemma ensure_loaded_once_witness :
  _movies (_ensure_loaded undecodable_csv init) = []
  /\ get_movie_by_id (Chunks DirMissing) 1 (_ensure_loaded undecodable_csv init)
     = (None, _ensure_loaded undecodable_csv init).
Proof.
  destruct (ensure_loaded_once undecodable_csv (Chunks DirMissing) init)
    as (_ & _ & Hfail).
  destruct (Hfail eq_refl eq_refl) as (Hempty & _ & Hget & _).
  split; [exact Hempty | exact (Hget 1)].
Defined.

(** ** Update *)

Lemma update_loop_found (movies : list Movie) (id0 : Z) (command : UpdateMovieCommand) :
  In id0 (map id movies) ->
  exists before target after,
    movies = before ++ target :: after
    /\ ~ In id0 (map id before)
    /\ id target = id0
    /\ update_loop movies id0 command
       = (before ++ apply_update command target :: after, true).
Proof.
  induction movies as [|movie rest IH]; simpl; [intros []|].
  intro Hin.
  destruct (id movie =? id0) eqn:Heq.
  - apply Z.eqb_eq in Heq.
    exists [], movie, rest. simpl. auto.
  - apply Z.eqb_neq in Heq.
    destruct Hin as [Hhead | Hin]; [contradiction|].
    destruct (IH Hin) as (before & target & after & Hsplit & Hnot & Hid & Hloop).
    exists (movie :: before), target, after.
    rewrite Hloop. subst rest. simpl.
    repeat split; auto.
    intros [Hhead | Hb]; [contradiction | exact (Hnot Hb)].
Qed.

Lemma update_loop_missing (movies : list Movie) (id0 : Z) (command : UpdateMovieCommand) :
  ~ In id0 (map id movies) -> update_loop movies id0 command = (movies, false).
Proof.
  induction movies as [|movie rest IH]; simpl; [reflexivity|].
  intro Hnot.
  destruct (id movie =? id0) eqn:Heq.
  - apply Z.eqb_eq in Heq. exfalso. apply Hnot. left. exact Heq.
  - rewrite IH; [reflexivity|]. intro Hin. apply Hnot. right. exact Hin.
Qed.

Lemma apply_update_catalogue (command : UpdateMovieCommand) (m : Movie) :
  same_catalogue_fields m (apply_update command m).
Proof. unfold same_catalogue_fields. simpl. repeat split. Qed.

(** C7: an update that gives only [is_favorite] leaves the counter and the
    flag of the store as they are.  When the identifier is in the store it
    succeeds, the first record with the identifier gets the new flag and
    keeps its title, its overview and each of its other fields, and the
    records before and after it are the same.  When no record has the
    identifier it fails and the store is the same. *)
Theorem favorite_update_frame
    (source : DataSource) (id0 : Z) (b : bool) (db : MovieDatabase) :
  let db1 := _ensure_loaded source db in
  let result := update_movie source id0 (only_favorite b) db in
  (In id0 (map id (_movies db1)) ->
   fst result = true
   /\ _next_id (snd result) = _next_id db1
   /\ _loaded (snd result) = _loaded db1
   /\ exists before target target' after,
        _movies db1 = before ++ target :: after
        /\ _movies (snd result) = before ++ target' :: after
        /\ ~ In id0 (map id before)
        /\ id target = id0
        /\ is_favorite target' = b
        /\ title target' = title target
        /\ overview target' = overview target
        /\ personal_rating target' = personal_rating target
        /\ personal_notes target' = personal_notes target
        /\ same_catalogue_fields target target')
  /\ (~ In id0 (map id (_movies db1)) ->
      fst result = false /\ snd result = db1).
Proof.
  intros db1 result. unfold result, update_movie. fold db1. split.
  - intro Hin.
    destruct (update_loop_found (_movies db1) id0 (only_favorite b) Hin)
      as (before & target & after & Hsplit & Hnot & Hid & Hloop).
    rewrite Hloop. simpl.
    repeat split.
    exists before, target, (apply_update (only_favorite b) target), after.
    repeat split; auto.
  - intro Hnot.
    rewrite (update_loop_missing _ _ _ Hnot). simpl.
    split; [reflexivity|]. destruct db1; reflexivity.
Qed.

Lemma favorite_update_frame_witness :
  fst (update_movie (Chunks DirMissing) 2 (only_favorite true) two_records) = true
  /\ fst (update_movie (Chunks DirMissing) 7 (only_favorite true) two_records) = false
  /\ snd (update_movie (Chunks DirMissing) 7 (only_favorite true) two_records)
     = two_records.
Proof.
  pose proof (favorite_update_frame (Chunks DirMissing) 2 true two_records) as H2.
  pose proof (favorite_update_frame (Chunks DirMissing) 7 true two_records) as H7.
  cbv zeta in H2, H7.
  destruct H2 as [Hfound _]. destruct H7 as [_ Hmissing].
  split.
  - apply Hfound. simpl. auto.
  - apply Hmissing. simpl. intros [H | [H | []]]; discriminate.
Defined.

(** *** Omitted and null fields *)

(** C2, as the code has it: for an identifier in the store the update
    succeeds and changes the first record with that identifier only; each of
    the five fields of the command takes the value given for it when that
    value is not null, and keeps its stored value when the field is left out
    or given as null; no other field changes. *)
Theorem update_applies_non_null_fields
    (source : DataSource) (id0 : Z) (r : UpdateRequest) (db : MovieDatabase) :
  let db1 := _ensure_loaded source db in
  let result := update_movie source id0 (command_of r) db in
  In id0 (map id (_movies db1)) ->
  fst result = true
  /\ exists before target target' after,
       _movies db1 = before ++ target :: after
       /\ _movies (snd result) = before ++ target' :: after
       /\ ~ In id0 (map id before)
       /\ id target = id0
       /\ (forall v, r_title r = Given v -> title target' = Some v)
       /\ (unset (r_title r) -> title target' = title target)
       /\ (forall v, r_overview r = Given v -> overview target' = Some v)
       /\ (unset (r_overview r) -> overview target' = overview target)
       /\ (forall v, r_is_favorite r = Given v -> is_favorite target' = v)
       /\ (unset (r_is_favorite r) -> is_favorite target' = is_favorite target)
       /\ (forall v, r_personal_rating r = Given v -> personal_rating target' = Some v)
       /\ (unset (r_personal_rating r) ->
           personal_rating target' = personal_rating target)
       /\ (forall v, r_personal_notes r = Given v -> personal_notes target' = Some v)
       /\ (unset (r_personal_notes r) ->
           personal_notes target' = personal_notes target)
       /\ same_catalogue_fields target target'.
Proof.
  intros db1 result Hin. unfold result, update_movie. fold db1.
  destruct (update_loop_found (_movies db1) id0 (command_of r) Hin)
    as (before & target & after & Hsplit & Hnot & Hid & Hloop).
  rewrite Hloop. simpl. split; [reflexivity|].
  exists before, target, (apply_update (command_of r) target), after.
  split; [exact Hsplit|]. split; [reflexivity|].
  split; [exact Hnot|]. split; [exact Hid|].
  unfold unset. simpl.
  repeat match goal with
         | |- _ /\ _ => split
         end;
    try (intros v Hv; rewrite Hv; reflexivity);
    try (intros [Hv | Hv]; rewrite Hv; reflexivity).
  apply apply_update_catalogue.
Qed.

Lemma update_applies_non_null_fields_witness :
  fst (update_movie (Chunks DirMissing) 2 (command_of (rate 6.5)) two_records) = true.
Proof.
  apply (update_applies_non_null_fields (Chunks DirMissing) 2 (rate 6.5) two_records).
  simpl. auto.
Defined.

(** The first record of [two_records] has a personal rating of 9.  An update
    of that record whose [personal_rating] is given as null succeeds and the
    rating is still 9: the stored value is not overwritten. *)
Lemma explicit_null_keeps_stored_value :
  let result :=
    update_movie (Chunks DirMissing) 1 (command_of clear_rating) two_records in
  r_personal_rating clear_rating = Null
  /\ map personal_rating (_movies two_records) = [Some 9%float; None]
  /\ fst result = true
  /\ map personal_rating (_movies (snd result)) = [Some 9%float; None]
  /\ map personal_rating (_movies (snd result)) <> [None; None].
Proof.
  repeat split; try reflexivity.
  intro H. vm_compute in H. discriminate H.
Qed.

(** ** Pagination *)

Section Pages.

Variable A : Type.

Lemma slice_nonneg (l : list A) (start stop : Z) :
  0 <= start -> start <= stop ->
  Py.slice l start stop
  = firstn (Z.to_nat (stop - start)) (skipn (Z.to_nat start) l).
Proof.
  intros Hs Hle. unfold Py.slice, Py.clamp_index.
  destruct (start <? 0) eqn:E1; [apply Z.ltb_lt in E1; lia|].
  destruct (stop <? 0) eqn:E2; [apply Z.ltb_lt in E2; lia|].
  set (n := Z.of_nat (List.length l)).
  destruct (Z_lt_le_dec start n) as [Hin | Hout].
  - rewrite (Z.min_l start n) by lia.
    destruct (Z_le_gt_dec stop n) as [Hfit | Hover].
    + rewrite (Z.min_l stop n) by lia. reflexivity.
    + rewrite (Z.min_r stop n) by lia.
      rewrite !firstn_all2; [reflexivity | |]; rewrite length_skipn; unfold n in *; lia.
  - rewrite (Z.min_r start n), (Z.min_r stop n) by lia.
    replace (n - n) with 0 by lia. simpl.
    rewrite (skipn_all2 l) by (unfold n in *; lia).
    rewrite firstn_nil. reflexivity.
Qed.

Lemma page_of_succ (n : nat) (l : list A) (p : nat) :
  (1 <= p)%nat -> page_of n l (S p) = page_of n (skipn n l) p.
Proof.
  intro Hp. unfold page_of. rewrite skipn_skipn. f_equal. f_equal.
  destruct p; [lia|]. simpl. rewrite !Nat.sub_0_r. lia.
Qed.

(** The pages 1 to [k] put end to end are the whole list as soon as
    [k] pages can hold it. *)
Lemma pages_concat (n : nat) :
  forall (k : nat) (l : list A),
    (List.length l <= k * n)%nat ->
    List.concat (map (page_of n l) (seq 1 k)) = l.
Proof.
  induction k as [|k IH]; intros l Hlen.
  - simpl in *. destruct l; [reflexivity | simpl in Hlen; lia].
  - rewrite <- cons_seq, <- seq_shift, map_cons, map_map. simpl List.concat.
    rewrite (map_ext_in (fun p => page_of n l (S p)) (page_of n (skipn n l))).
    + rewrite IH.
      * unfold page_of. simpl. apply firstn_skipn.
      * rewrite length_skipn. simpl in Hlen. lia.
    + intros p Hp. apply in_seq in Hp. apply page_of_succ. lia.
Qed.

End Pages.

Lemma ceil_div_bounds (total size : Z) :
  0 < size -> (ceil_div total size - 1) * size < total <= ceil_div total size * size.
Proof.
  intro Hs. unfold ceil_div.
  pose proof (Z.div_mod total size ltac:(lia)) as Hdm.
  pose proof (Z.mod_pos_bound total size Hs) as Hb.
  destruct (total mod size =? 0) eqn:E.
  - apply Z.eqb_eq in E. nia.
  - apply Z.eqb_neq in E. nia.
Qed.

Lemma len_nonneg {A} (l : list A) : 0 <= len l.
Proof. unfold len. lia. Qed.

Lemma get_movies_unfold (source : DataSource) (p n : Z)
    (filters : option MovieFilters) (db : MovieDatabase) :
  get_movies source p n filters db
  = let db1 := _ensure_loaded source db in
    let filtered := _apply_filters (_movies db1) filters in
    ({| items := Py.slice filtered ((p - 1) * n) ((p - 1) * n + n);
        total := len filtered;
        page := p;
        size := n;
        pages := if len filtered >? 0 then ceil_div (len filtered) n else 1 |},
     db1).
Proof. reflexivity. Qed.

Lemma get_movies_items (source : DataSource) (p n : Z)
    (filters : option MovieFilters) (db : MovieDatabase) :
  1 <= p -> 1 <= n ->
  items (fst (get_movies source p n filters db))
  = page_of (Z.to_nat n)
      (_apply_filters (_movies (_ensure_loaded source db)) filters) (Z.to_nat p).
Proof.
  intros Hp Hn. rewrite get_movies_unfold. cbn [fst items].
  rewrite slice_nonneg by nia.
  unfold page_of. f_equal; [f_equal; lia|]. f_equal.
  rewrite Z2Nat.inj_mul by lia. f_equal.
  rewrite Z2Nat.inj_sub by lia. reflexivity.
Qed.

(** C3: for a page and a page size of at least 1, [get_movies] returns the
    part of the filtered list that starts at offset [(page-1)*size] and has
    [size] items, or what is left of the list from there on, with the number
    of filtered records as total.  The page has at most [size] items and is
    empty when the offset is past the end.  The page count is 1 for no match
    and otherwise the least number of pages of [size] items that hold every
    match.  The pages from 1 to that count, end to end, are the filtered
    list. *)
Theorem get_page_correct
    (source : DataSource) (db : MovieDatabase) (filters : option MovieFilters)
    (p n : Z) :
  1 <= p -> 1 <= n ->
  let db1 := _ensure_loaded source db in
  let filtered := _apply_filters (_movies db1) filters in
  let response := fst (get_movies source p n filters db) in
  items response
  = firstn (Z.to_nat n) (skipn (Z.to_nat ((p - 1) * n)) filtered)
  /\ total response = len filtered
  /\ len (items response) <= n
  /\ (len filtered <= (p - 1) * n -> items response = [])
  /\ (len filtered = 0 -> pages response = 1)
  /\ (0 < len filtered ->
      (pages response - 1) * n < len filtered <= pages response * n)
  /\ List.concat
       (map (fun q => items (fst (get_movies source (Z.of_nat q) n filters db1)))
            (seq 1 (Z.to_nat (pages response))))
     = filtered.
Proof.
  intros Hp Hn db1 filtered response.
  assert (Hitems : items response
            = firstn (Z.to_nat n) (skipn (Z.to_nat ((p - 1) * n)) filtered)).
  { unfold response. rewrite get_movies_unfold. cbn [fst items].
    fold db1. fold filtered.
    rewrite slice_nonneg by nia. f_equal. f_equal. lia. }
  assert (Hpages : pages response
            = if len filtered >? 0 then ceil_div (len filtered) n else 1).
  { unfold response. rewrite get_movies_unfold. reflexivity. }
  pose proof (len_nonneg filtered) as Hlen.
  pose proof (ceil_div_bounds (len filtered) n ltac:(lia)) as Hceil.
  split; [exact Hitems|].
  split; [unfold response; rewrite get_movies_unfold; reflexivity|].
  split.
  { rewrite Hitems. unfold len. rewrite length_firstn. lia. }
  split.
  { intro Hpast. rewrite Hitems.
    rewrite skipn_all2; [apply firstn_nil|]. unfold len in Hpast. lia. }
  split.
  { intro Hzero. rewrite Hpages, Hzero. reflexivity. }
  split.
  { intro Hpos. rewrite Hpages.
    destruct (len filtered >? 0) eqn:E; [exact Hceil|].
    rewrite Z.gtb_ltb in E. apply Z.ltb_ge in E. lia. }
  rewrite (map_ext_in _ (page_of (Z.to_nat n) filtered)).
  - apply pages_concat. rewrite Hpages.
    destruct (len filtered >? 0) eqn:E.
    + unfold len in *. nia.
    + rewrite Z.gtb_ltb in E. apply Z.ltb_ge in E. unfold len in *. lia.
  - intros q Hq. apply in_seq in Hq.
    rewrite get_movies_items by lia.
    unfold db1. rewrite _ensure_loaded_again. fold db1. fold filtered.
    rewrite Nat2Z.id. reflexivity.
Qed.

Lemma get_page_correct_witness :
  items (fst (get_movies (Chunks DirMissing) 2 1 None two_records)) = [unrated 2]
  /\ total (fst (get_movies (Chunks DirMissing) 2 1 None two_records)) = 2.
Proof.
  destruct (get_page_correct (Chunks DirMissing) two_records None 2 1
              ltac:(lia) ltac:(lia))
    as (Hitems & Htotal & _).
  split; [exact Hitems | exact Htotal].
Defined.

(** ** Identifiers *)

(** C1, at the input where the code departs from it: [_load_from_csv_chunked]
    numbers a row by its position in the frame, skipped rows included, but
    counts the records kept to set [processed_count] and [_next_id].  After a
    frame whose first row is skipped the records have the identifiers 2 and
    3 and the counter is 3: the next create returns 3, which a loaded record
    already has, and a second frame starts again at 3. *)
Theorem csv_load_reuses_identifier :
  let db1 := _ensure_loaded csv_with_skipped_row init in
  let created := create_movie csv_with_skipped_row test_movie init in
  map id (_movies db1) = [2; 3]
  /\ _next_id db1 = 3
  /\ fst created = 3
  /\ map id (_movies (snd created)) = [2; 3; 3]
  /\ map id (_movies (_ensure_loaded csv_with_two_frames init)) = [2; 3; 3].
Proof. repeat split; reflexivity. Qed.

(** ** Statistics *)

(** The statistics of a store without records. *)
Example get_stats_empty (source : DataSource) :
  fst (get_stats source {| _movies := []; _next_id := 1; _loaded := true |})
  = {| total_movies := 0; favorites_count := 0; rated_count := 0;
       top_genres := []; decade_distribution := [] |}.
Proof. reflexivity. Qed.

(** C6, at the input where the code departs from it: [get_stats] reads the
    records through [get_movies_paginated(page=1, size=99999)], so that it
    counts the first 99999 records only, while the total it reports is that
    of the whole store.  [big_store] holds 100000 records, each a favourite
    with a personal rating, the genre Drama and a release in 1995. *)
Theorem stats_stop_at_99999 :
  let stats := fst (get_stats (Chunks DirMissing) big_store) in
  len (_movies big_store) = 100000
  /\ len (List.filter is_favorite (_movies big_store)) = 100000
  /\ total_movies stats = 100000
  /\ favorites_count stats = 99999
  /\ rated_count stats = 99999
  /\ top_genres stats = [("Drama", 99999)]
  /\ decade_distribution stats = [(1990, 99999)].
Proof. vm_compute. repeat split. Qed.

(** *** Identifiers on the chunk-directory path

    [_load_from_chunks] counts the rows it keeps, so that the records it
    loads are numbered 1, 2, ... without gap, and the counter starts above
    them.  From there on every create returns a new, larger identifier,
    whatever is deleted or updated in between. *)

Lemma count_from_snoc (n : nat) :
  forall first, count_from first (S n) = count_from first n ++ [first + Z.of_nat n].
Proof.
  induction n as [|n IH]; intro first.
  - simpl. rewrite Z.add_0_r. reflexivity.
  - change (count_from first (S (S n)))
      with (first :: count_from (first + 1) (S n)).
    rewrite IH. cbn [count_from app].
    replace (first + Z.of_nat (S n)) with (first + 1 + Z.of_nat n) by lia.
    reflexivity.
Qed.

Lemma count_from_In (n : nat) :
  forall first i, In i (count_from first n) <-> first <= i < first + Z.of_nat n.
Proof.
  induction n as [|n IH]; intros first i; simpl.
  - lia.
  - rewrite IH. lia.
Qed.

Lemma count_from_NoDup (n : nat) : forall first, NoDup (count_from first n).
Proof.
  induction n as [|n IH]; intro first; simpl; constructor.
  - rewrite count_from_In. lia.
  - apply IH.
Qed.

Lemma numbered_snoc (movies : list Movie) (m : Movie) :
  numbered movies -> id m = len movies + 1 -> numbered (movies ++ [m]).
Proof.
  unfold numbered, len. intros Hn Hid.
  rewrite map_app, length_app, Nat.add_1_r, count_from_snoc, Hn.
  cbn [map]. rewrite Hid, Z.add_comm. reflexivity.
Qed.

Lemma load_chunk_rows_numbered (rows : list Row) :
  Forall faithful rows ->
  forall movies, numbered movies ->
    numbered (fst (load_chunk_rows rows (movies, len movies)))
    /\ snd (load_chunk_rows rows (movies, len movies))
       = len (fst (load_chunk_rows rows (movies, len movies))).
Proof.
  induction 1 as [|row rows Hrow _ IH]; intros movies Hn; simpl.
  - split; [exact Hn | reflexivity].
  - destruct (row (len movies + 1)) as [m|] eqn:E.
    + replace (len movies + 1) with (len (movies ++ [m]))
        by (unfold len; rewrite length_app; simpl; lia).
      apply IH. apply numbered_snoc; [exact Hn | exact (Hrow _ _ E)].
    + apply IH, Hn.
Qed.

Lemma load_chunk_files_numbered (chunk_files : list ChunkFile) :
  Forall faithful_file chunk_files ->
  forall movies, numbered movies ->
    numbered (fst (load_chunk_files chunk_files (movies, len movies))).
Proof.
  induction 1 as [|file files Hfile _ IH]; intros movies Hn; [exact Hn|].
  destruct file as [rows|]; simpl.
  - destruct (load_chunk_rows_numbered rows Hfile movies Hn) as [Hn' Ht].
    destruct (load_chunk_rows rows (movies, len movies)) as [movies' t] eqn:E.
    simpl in Hn', Ht. subst t. apply IH, Hn'.
  - apply IH, Hn.
Qed.

(** The store [_ensure_loaded] leaves on the chunk path. *)
Lemma chunks_loaded (dir : ChunkDir) :
  faithful_dir dir ->
  let db := _ensure_loaded (Chunks dir) init in
  numbered (_movies db) /\ _next_id db = len (_movies db) + 1.
Proof.
  intro Hdir.
  destruct dir as [| |[|file files]]; try (split; reflexivity).
  pose proof (load_chunk_files_numbered (file :: files) Hdir [] eq_refl) as Hn.
  change (len []) with 0 in Hn.
  cbv beta iota zeta delta [_ensure_loaded init _loaded bulk_load _load_from_chunks].
  destruct (load_chunk_files (file :: files) ([], 0)) as [movies t].
  cbn [fst] in Hn. split; [exact Hn | reflexivity].
Qed.

Lemma numbered_consistent (db : MovieDatabase) :
  _loaded db = true -> numbered (_movies db) ->
  _next_id db = len (_movies db) + 1 -> consistent db.
Proof.
  intros Hl Hn Hc. split; [exact Hl | |]; rewrite Hn.
  - apply count_from_NoDup.
  - apply Forall_forall. intros i Hi. apply count_from_In in Hi.
    rewrite Hc. unfold len. lia.
Qed.

Lemma update_loop_ids (movies : list Movie) (id0 : Z) (command : UpdateMovieCommand) :
  map id (fst (update_loop movies id0 command)) = map id movies.
Proof.
  induction movies as [|movie rest IH]; simpl; [reflexivity|].
  destruct (id movie =? id0); [reflexivity|].
  destruct (update_loop rest id0 command) as [rest' found].
  simpl in *. rewrite IH. reflexivity.
Qed.

Lemma delete_loop_subsequence (movies : list Movie) (id0 : Z) :
  subsequence (fst (delete_loop movies id0)) movies.
Proof.
  induction movies as [|movie rest IH]; simpl; [constructor|].
  destruct (id movie =? id0); simpl.
  - constructor. apply subsequence_refl.
  - destruct (delete_loop rest id0) as [rest' found]. simpl in *.
    apply subseq_keep. exact IH.
Qed.

Section Subsequences.

Variables A B : Type.

Lemma subsequence_map (f : A -> B) (l1 l2 : list A) :
  subsequence l1 l2 -> subsequence (map f l1) (map f l2).
Proof.
  induction 1; simpl; [constructor | apply subseq_skip | apply subseq_keep];
    assumption.
Qed.

Lemma subsequence_In (l1 l2 : list A) (x : A) :
  subsequence l1 l2 -> In x l1 -> In x l2.
Proof.
  induction 1 as [|y l1 l2 _ IH|y l1 l2 _ IH]; simpl; [tauto| |]; intuition.
Qed.

Lemma subsequence_NoDup (l1 l2 : list A) :
  subsequence l1 l2 -> NoDup l2 -> NoDup l1.
Proof.
  induction 1 as [|y l1 l2 Hs IH|y l1 l2 Hs IH]; intro Hnd.
  - constructor.
  - inversion Hnd; auto.
  - inversion Hnd as [|? ? Hy Hrest]; subst. constructor; [|auto].
    intro Hin. apply Hy. exact (subsequence_In _ _ _ Hs Hin).
Qed.

Lemma subsequence_Forall (P : A -> Prop) (l1 l2 : list A) :
  subsequence l1 l2 -> Forall P l2 -> Forall P l1.
Proof.
  intros Hs Hall. apply Forall_forall. intros x Hx.
  apply (proj1 (Forall_forall P l2) Hall). exact (subsequence_In _ _ _ Hs Hx).
Qed.

End Subsequences.

(** Every operation starts with [_ensure_loaded], which is void on a loaded
    store. *)
Lemma perform_consistent (source : DataSource) (op : Operation) (db : MovieDatabase) :
  consistent db ->
  consistent (snd (perform source op db))
  /\ _next_id db <= _next_id (snd (perform source op db))
  /\ (forall new_id, fst (perform source op db) = Some new_id ->
        new_id = _next_id db
        /\ _next_id (snd (perform source op db)) = new_id + 1).
Proof.
  intros [Hl Hnd Hlt].
  destruct op as [command | id0 command | id0]; simpl.
  - unfold create_movie. rewrite (_ensure_loaded_when_loaded source db Hl). simpl.
    split; [|split; [lia | intros ? [= <-]; auto]].
    split; simpl; [exact Hl | |]; rewrite map_app; simpl.
    + apply NoDup_app; [exact Hnd | repeat constructor; intros [] |].
      intros i Hi [<- | []].
      apply (proj1 (Forall_forall _ _) Hlt) in Hi. lia.
    + apply Forall_app. split.
      * eapply Forall_impl; [|exact Hlt]. simpl. intros; lia.
      * constructor; [lia | constructor].
  - unfold update_movie. rewrite (_ensure_loaded_when_loaded source db Hl).
    pose proof (update_loop_ids (_movies db) id0 command) as Hids.
    destruct (update_loop (_movies db) id0 command) as [movies found].
    simpl in *. split; [|split; [lia | discriminate]].
    split; simpl; [exact Hl | |]; rewrite Hids; assumption.
  - unfold delete_movie. rewrite (_ensure_loaded_when_loaded source db Hl).
    pose proof (subsequence_map _ _ id _ _ (delete_loop_subsequence (_movies db) id0))
      as Hsub.
    destruct (delete_loop (_movies db) id0) as [movies found].
    simpl in *. split; [|split; [lia | discriminate]].
    split; simpl; [exact Hl | |].
    + exact (subsequence_NoDup _ _ _ Hsub Hnd).
    + exact (subsequence_Forall _ _ _ _ Hsub Hlt).
Qed.

Lemma perform_loads_first (source : DataSource) (op : Operation) (db : MovieDatabase) :
  perform source op db = perform source op (_ensure_loaded source db).
Proof.
  destruct op; unfold perform, create_movie, update_movie, delete_movie;
    rewrite _ensure_loaded_again; reflexivity.
Qed.

Lemma run_consistent (source : DataSource) (ops : list Operation) :
  forall db, consistent db ->
    consistent (snd (run source ops db))
    /\ _next_id db <= _next_id (snd (run source ops db))
    /\ StronglySorted Z.lt (fst (run source ops db))
    /\ Forall (fun i => _next_id db <= i < _next_id (snd (run source ops db)))
              (fst (run source ops db)).
Proof.
  induction ops as [|op ops IH]; intros db Hc; simpl.
  - split; [exact Hc|]. split; [lia|]. split; constructor.
  - destruct (perform_consistent source op db Hc) as (Hc1 & Hle & Hnew).
    destruct (perform source op db) as [returned db1]. simpl in *.
    destruct (IH db1 Hc1) as (Hc2 & Hle2 & Hsorted & Hall).
    destruct (run source ops db1) as [created db2]. simpl in *.
    split; [exact Hc2|]. split; [lia|].
    destruct returned as [new_id|].
    + destruct (Hnew new_id eq_refl) as [-> Hnext]. split.
      * constructor; [exact Hsorted|].
        eapply Forall_impl; [|exact Hall]. simpl. intros; lia.
      * constructor; [lia|].
        eapply Forall_impl; [|exact Hall]. simpl. intros; lia.
    + split; [exact Hsorted|].
      eapply Forall_impl; [|exact Hall]. simpl. intros; lia.
Qed.

(** X16: on the chunk-directory path, with rows that bear the identifier they are
    given: the loaded records are numbered from 1 without gap; the
    identifiers the creates return are strictly increasing and all above the
    number of loaded records, whatever updates and deletions come in
    between; and the records of the store always have distinct
    identifiers. *)
Theorem chunk_identifiers_fresh (dir : ChunkDir) (ops : list Operation) :
  faithful_dir dir ->
  let loaded := _ensure_loaded (Chunks dir) init in
  let result := run (Chunks dir) ops loaded in
  map id (_movies loaded) = count_from 1 (List.length (_movies loaded))
  /\ StronglySorted Z.lt (fst result)
  /\ Forall (fun new_id => len (_movies loaded) < new_id) (fst result)
  /\ NoDup (map id (_movies (snd result))).
Proof.
  intros Hdir loaded result.
  destruct (chunks_loaded dir Hdir) as [Hn Hc]. fold loaded in Hn, Hc.
  assert (Hcons : consistent loaded).
  { apply numbered_consistent; [apply _ensure_loaded_sets_flag | exact Hn | exact Hc]. }
  destruct (run_consistent (Chunks dir) ops loaded Hcons)
    as (Hfinal & _ & Hsorted & Hall).
  fold result in Hfinal, Hsorted, Hall.
  split; [exact Hn|]. split; [exact Hsorted|]. split.
  - eapply Forall_impl; [|exact Hall]. simpl. intros; lia.
  - apply Hfinal.
Qed.

Lemma chunk_identifiers_fresh_example :
  let result :=
    run (Chunks three_chunk_rows)
      [Create test_movie; Delete 4; Create test_movie; Delete 2; Create test_movie]
      init in
  fst result = [4; 5; 6] /\ map id (_movies (snd result)) = [1; 3; 5; 6].
Proof. split; reflexivity. Qed.

(** ** Histograms *)

Section Histogram.

Variable K : Type.
Variable eqb : K -> K -> bool.
Hypothesis eqb_eq : forall a b, eqb a b = true <-> a = b.

Lemma eqb_refl (a : K) : eqb a a = true.
Proof. apply eqb_eq. reflexivity. Qed.










End Histogram.

(** ** The two sorts *)

Section ByCount.

Variable K : Type.





End ByCount.







(** ** Statistics of a store within the page limit of [get_stats] *)





Lemma get_stats_unfold (source : DataSource) (db : MovieDatabase) :
  get_stats source db
  = let db1 := _ensure_loaded source db in
    let all_movies := Py.slice (_movies db1) ((1 - 1) * 99999) ((1 - 1) * 99999 + 99999) in
    ({| total_movies := len (_movies db1);
        favorites_count := len (List.filter is_favorite all_movies);
        rated_count :=
          len (List.filter (fun m => is_some (personal_rating m)) all_movies);
        top_genres := Py.slice (sorted_by_count_desc (count_genres all_movies)) 0 10;
        decade_distribution := sorted_pairs (count_decades all_movies) |},
     db1).
Proof. reflexivity. Qed.

Lemma all_movies_within_limit (movies : list Movie) :
  len movies <= 99999 ->
  Py.slice movies ((1 - 1) * 99999) ((1 - 1) * 99999 + 99999) = movies.
Proof.
  intro Hlen. rewrite slice_nonneg by lia.
  change (Z.to_nat ((1 - 1) * 99999)) with O. rewrite skipn_O.
  apply firstn_all2. unfold len in Hlen. lia.
Qed.


(** ** Lookup, create, update and delete *)

Lemma find_first (movies before after : list Movie) (m : Movie) (id0 : Z) :
  movies = before ++ m :: after -> ~ In id0 (map id before) -> id m = id0 ->
  find (fun movie => id movie =? id0) movies = Some m.
Proof.
  intros -> Hnot Hid. induction before as [|b before IH]; simpl.
  - rewrite Hid, Z.eqb_refl. reflexivity.
  - simpl in Hnot. destruct (id b =? id0) eqn:E.
    + apply Z.eqb_eq in E. tauto.
    + apply IH. tauto.
Qed.

Lemma find_absent (movies : list Movie) (id0 : Z) :
  ~ In id0 (map id movies) -> find (fun movie => id movie =? id0) movies = None.
Proof.
  induction movies as [|b movies IH]; simpl; [reflexivity|].
  intro Hnot. destruct (id b =? id0) eqn:E.
  - apply Z.eqb_eq in E. tauto.
  - apply IH. tauto.
Qed.

Lemma find_first_inv (movies : list Movie) (m : Movie) (id0 : Z) :
  find (fun movie => id movie =? id0) movies = Some m ->
  exists before after,
    movies = before ++ m :: after /\ ~ In id0 (map id before) /\ id m = id0.
Proof.
  induction movies as [|b movies IH]; simpl; [discriminate|].
  destruct (id b =? id0) eqn:E.
  - intros [= <-]. apply Z.eqb_eq in E. exists [], movies. simpl. auto.
  - intro H. destruct (IH H) as (before & after & -> & Hnot & Hid).
    exists (b :: before), after. simpl. apply Z.eqb_neq in E.
    repeat split; auto. intros [Hb | Hb]; [contradiction | exact (Hnot Hb)].
Qed.

Lemma first_with_id (movies : list Movie) (id0 : Z) :
  In id0 (map id movies) ->
  exists before m after,
    movies = before ++ m :: after /\ ~ In id0 (map id before) /\ id m = id0.
Proof.
  intro Hin.
  destruct (update_loop_found movies id0 (only_favorite true) Hin)
    as (before & m & after & Hsplit & Hnot & Hid & _).
  exists before, m, after. auto.
Qed.

(** X1: [get_movie_by_id] leaves the store as the lazy load makes it; it
    returns the first record that bears the identifier, and [None] exactly
    when no record bears it. *)
Theorem get_movie_by_id_first
    (source : DataSource) (id0 : Z) (db : MovieDatabase) :
  let db1 := _ensure_loaded source db in
  let result := get_movie_by_id source id0 db in
  snd result = db1
  /\ (forall m, fst result = Some m <->
        exists before after,
          _movies db1 = before ++ m :: after
          /\ ~ In id0 (map id before) /\ id m = id0)
  /\ (fst result = None <-> ~ In id0 (map id (_movies db1))).
Proof.
  intros db1 result. unfold result, get_movie_by_id. fold db1. simpl.
  split; [reflexivity|]. split.
  - intro m. split.
    + apply find_first_inv.
    + intros (before & after & Hsplit & Hnot & Hid).
      exact (find_first _ _ _ _ _ Hsplit Hnot Hid).
  - split.
    + intros Hnone Hin.
      destruct (first_with_id _ _ Hin) as (before & m & after & Hsplit & Hnot & Hid).
      rewrite (find_first _ _ _ _ _ Hsplit Hnot Hid) in Hnone. discriminate.
    + apply find_absent.
Qed.

(** X2: [create_movie] returns the counter, puts one record after those of
    the store, which stay as they are, and moves the counter up by one.  The
    record has the fields of the command, is no favourite, and has neither
    personal rating nor notes.  When no record bears the counter as its
    identifier, a lookup of the returned identifier gives that record. *)
Theorem create_then_get
    (source source' : DataSource) (command : CreateMovieCommand) (db : MovieDatabase) :
  let db1 := _ensure_loaded source db in
  let created := create_movie source command db in
  fst created = _next_id db1
  /\ _next_id (snd created) = _next_id db1 + 1
  /\ _loaded (snd created) = true
  /\ exists m,
       _movies (snd created) = _movies db1 ++ [m]
       /\ id m = fst created
       /\ built_from command m
       /\ (~ In (_next_id db1) (map id (_movies db1)) ->
           get_movie_by_id source' (fst created) (snd created)
           = (Some m, snd created)).
Proof.
  intros db1 created. unfold created, create_movie. fold db1. simpl.
  split; [reflexivity|]. split; [reflexivity|].
  split; [apply _ensure_loaded_sets_flag|].
  eexists. split; [reflexivity|]. split; [reflexivity|].
  split; [unfold built_from; simpl; repeat split|].
  intro Hfresh. unfold get_movie_by_id.
  rewrite _ensure_loaded_when_loaded by (simpl; apply _ensure_loaded_sets_flag).
  simpl. f_equal.
  eapply find_first; [reflexivity | exact Hfresh | reflexivity].
Qed.

Lemma create_then_get_witness :
  fst (get_movie_by_id (Chunks DirMissing)
         (fst (create_movie (Chunks DirMissing) test_movie two_records))
         (snd (create_movie (Chunks DirMissing) test_movie two_records)))
  <> None.
Proof.
  destruct (create_then_get (Chunks DirMissing) (Chunks DirMissing) test_movie two_records)
    as (_ & _ & _ & m & _ & _ & _ & Hget).
  rewrite Hget; [discriminate|].
  simpl. intros [H | [H | []]]; discriminate.
Defined.

Lemma delete_loop_found (movies : list Movie) (id0 : Z) :
  In id0 (map id movies) ->
  exists before target after,
    movies = before ++ target :: after
    /\ ~ In id0 (map id before)
    /\ id target = id0
    /\ delete_loop movies id0 = (before ++ after, true).
Proof.
  induction movies as [|movie rest IH]; simpl; [intros []|].
  intro Hin.
  destruct (id movie =? id0) eqn:Heq.
  - apply Z.eqb_eq in Heq. exists [], movie, rest. simpl. auto.
  - apply Z.eqb_neq in Heq.
    destruct Hin as [Hhead | Hin]; [contradiction|].
    destruct (IH Hin) as (before & target & after & Hsplit & Hnot & Hid & Hloop).
    exists (movie :: before), target, after.
    rewrite Hloop. subst rest. simpl.
    repeat split; auto.
    intros [Hhead | Hb]; [contradiction | exact (Hnot Hb)].
Qed.

Lemma delete_loop_missing (movies : list Movie) (id0 : Z) :
  ~ In id0 (map id movies) -> delete_loop movies id0 = (movies, false).
Proof.
  induction movies as [|movie rest IH]; simpl; [reflexivity|].
  intro Hnot.
  destruct (id movie =? id0) eqn:Heq.
  - apply Z.eqb_eq in Heq. exfalso. apply Hnot. left. exact Heq.
  - rewrite IH; [reflexivity|]. intro Hin. apply Hnot. right. exact Hin.
Qed.

(** X3: [delete_movie] on an identifier of the store returns [True] and takes
    out the first record that bears it, and nothing else: the records before
    and after it stay, in order, and the counter is not moved back.  On an
    identifier of no record it returns [False] and the store is the same. *)
Theorem delete_removes_first
    (source : DataSource) (id0 : Z) (db : MovieDatabase) :
  let db1 := _ensure_loaded source db in
  let result := delete_movie source id0 db in
  _next_id (snd result) = _next_id db1
  /\ (In id0 (map id (_movies db1)) ->
      fst result = true
      /\ exists before target after,
           _movies db1 = before ++ target :: after
           /\ ~ In id0 (map id before)
           /\ id target = id0
           /\ _movies (snd result) = before ++ after)
  /\ (~ In id0 (map id (_movies db1)) ->
      fst result = false /\ snd result = db1).
Proof.
  intros db1 result. unfold result, delete_movie. fold db1.
  destruct (in_dec Z.eq_dec id0 (map id (_movies db1))) as [Hin | Hout].
  - destruct (delete_loop_found _ _ Hin)
      as (before & target & after & Hsplit & Hnot & Hid & Hloop).
    rewrite Hloop. simpl. split; [reflexivity|]. split; [|contradiction].
    intros _. split; [reflexivity|]. exists before, target, after. auto.
  - rewrite (delete_loop_missing _ _ Hout). simpl.
    split; [reflexivity|]. split; [contradiction|].
    intros _. split; [reflexivity|]. destruct db1; reflexivity.
Qed.

Lemma delete_removes_first_witness :
  map id (_movies (snd (delete_movie (Chunks DirMissing) 1 two_records))) = [2]
  /\ snd (delete_movie (Chunks DirMissing) 9 two_records) = two_records.
Proof.
  destruct (delete_removes_first (Chunks DirMissing) 1 two_records) as (_ & Hin & _).
  destruct (delete_removes_first (Chunks DirMissing) 9 two_records) as (_ & _ & Hout).
  cbv zeta in Hin, Hout. split.
  - destruct Hin as (_ & before & target & after & Hsplit & Hnot & Hid & Hafter).
    + simpl. auto.
    + rewrite Hafter. clear Hafter.
      destruct before as [|b before]; simpl in Hsplit.
      * injection Hsplit as _ <-. reflexivity.
      * injection Hsplit as <- _. exfalso. apply Hnot. left. reflexivity.
  - apply Hout. simpl. intros [H | [H | []]]; discriminate.
Defined.

(** X4: when the records of the store have distinct identifiers, a deleted
    identifier is gone: a lookup of it finds nothing and a second delete
    returns [False] and changes nothing. *)
Theorem delete_is_final
    (source source' : DataSource) (id0 : Z) (db : MovieDatabase) :
  let db1 := _ensure_loaded source db in
  let db2 := snd (delete_movie source id0 db) in
  NoDup (map id (_movies db1)) ->
  In id0 (map id (_movies db1)) ->
  fst (get_movie_by_id source' id0 db2) = None
  /\ fst (delete_movie source' id0 db2) = false
  /\ snd (delete_movie source' id0 db2) = db2.
Proof.
  intros db1 db2 Hnd Hin.
  destruct (delete_loop_found _ _ Hin)
    as (before & target & after & Hsplit & Hnot & Hid & Hloop).
  fold db1 in Hsplit.
  assert (Hdb2 : db2 = {| _movies := before ++ after;
                          _next_id := _next_id db1;
                          _loaded := _loaded db1 |}).
  { unfold db2, delete_movie. fold db1. rewrite Hloop. reflexivity. }
  assert (Hl : _loaded db2 = true).
  { rewrite Hdb2. apply _ensure_loaded_sets_flag. }
  assert (Hgone : ~ In id0 (map id (_movies db2))).
  { rewrite Hdb2. cbn [_movies]. rewrite map_app. intro Hi. apply in_app_or in Hi.
    destruct Hi as [Hi | Hi]; [exact (Hnot Hi)|].
    rewrite Hsplit, map_app in Hnd. simpl in Hnd.
    apply NoDup_remove_2 in Hnd. apply Hnd. apply in_or_app. right.
    rewrite Hid. exact Hi. }
  unfold get_movie_by_id, delete_movie.
  rewrite (_ensure_loaded_when_loaded source' db2 Hl).
  rewrite (find_absent _ _ Hgone), (delete_loop_missing _ _ Hgone).
  cbn [fst snd]. repeat split. destruct db2; reflexivity.
Qed.

Lemma delete_is_final_witness :
  fst (delete_movie (Chunks DirMissing) 2
         (snd (delete_movie (Chunks DirMissing) 2 two_records))) = false.
Proof.
  apply (delete_is_final (Chunks DirMissing) (Chunks DirMissing) 2 two_records).
  - simpl. repeat constructor; simpl; intuition discriminate.
  - simpl. auto.
Defined.

Lemma update_movie_loaded (source : DataSource) (id0 : Z)
    (command : UpdateMovieCommand) (db : MovieDatabase) :
  _loaded (snd (update_movie source id0 command db)) = true.
Proof.
  unfold update_movie.
  destruct (update_loop (_movies (_ensure_loaded source db)) id0 command).
  simpl. apply _ensure_loaded_sets_flag.
Qed.

(** X5: a lookup after an update gives the record the lookup gave before,
    with the assignments of the update made on it. *)
Theorem update_then_get
    (source source' : DataSource) (id0 : Z) (command : UpdateMovieCommand)
    (db : MovieDatabase) (m : Movie) :
  fst (get_movie_by_id source id0 db) = Some m ->
  fst (update_movie source id0 command db) = true
  /\ fst (get_movie_by_id source' id0 (snd (update_movie source id0 command db)))
     = Some (apply_update command m).
Proof.
  intro Hget. unfold get_movie_by_id in Hget. cbn [fst] in Hget.
  apply find_first_inv in Hget. destruct Hget as (before & after & Hsplit & Hnot & Hid).
  assert (Hin : In id0 (map id (_movies (_ensure_loaded source db)))).
  { rewrite Hsplit, map_app. apply in_or_app. right. left. exact Hid. }
  destruct (update_loop_found _ id0 command Hin)
    as (before' & m' & after' & Hsplit' & Hnot' & Hid' & Hloop).
  assert (Hm : m' = m).
  { pose proof (find_first _ _ _ _ _ Hsplit Hnot Hid) as H1.
    pose proof (find_first _ _ _ _ _ Hsplit' Hnot' Hid') as H2.
    congruence. }
  subst m'.
  pose proof (update_movie_loaded source id0 command db) as Hl.
  unfold get_movie_by_id. rewrite (_ensure_loaded_when_loaded _ _ Hl).
  unfold update_movie in *. rewrite Hloop in *. simpl.
  split; [reflexivity|].
  eapply find_first; [reflexivity | exact Hnot' | exact Hid'].
Qed.

Lemma update_then_get_witness :
  fst (get_movie_by_id (Chunks DirMissing) 2
         (snd (update_movie (Chunks DirMissing) 2 (only_favorite true) two_records)))
  = Some (apply_update (only_favorite true) (unrated 2)).
Proof.
  apply (update_then_get (Chunks DirMissing) (Chunks DirMissing) 2
           (only_favorite true) two_records (unrated 2)).
  reflexivity.
Defined.

Lemma apply_update_twice (command : UpdateMovieCommand) (m : Movie) :
  apply_update command (apply_update command m) = apply_update command m.
Proof.
  destruct command as [t o f r n].
  unfold apply_update. simpl.
  destruct t, o, f, r, n; reflexivity.
Qed.

(** X6: an update changes neither the number of records, nor their
    identifiers, nor their order, nor the counter; and making the same
    update a second time changes nothing more. *)
Theorem update_keeps_identifiers_and_repeats
    (source source' : DataSource) (id0 : Z) (command : UpdateMovieCommand)
    (db : MovieDatabase) :
  let db1 := _ensure_loaded source db in
  let db2 := snd (update_movie source id0 command db) in
  map id (_movies db2) = map id (_movies db1)
  /\ _next_id db2 = _next_id db1
  /\ snd (update_movie source' id0 command db2) = db2.
Proof.
  intros db1 db2.
  pose proof (update_movie_loaded source id0 command db) as Hl. fold db2 in Hl.
  assert (Hids : map id (_movies db2) = map id (_movies db1)).
  { unfold db2, update_movie. fold db1.
    pose proof (update_loop_ids (_movies db1) id0 command) as H.
    destruct (update_loop (_movies db1) id0 command). exact H. }
  split; [exact Hids|]. split.
  { unfold db2, update_movie. fold db1.
    destruct (update_loop (_movies db1) id0 command). reflexivity. }
  unfold update_movie at 1. rewrite (_ensure_loaded_when_loaded _ _ Hl).
  destruct (in_dec Z.eq_dec id0 (map id (_movies db1))) as [Hin | Hout].
  - destruct (update_loop_found _ id0 command Hin)
      as (before & m & after & Hsplit & Hnot & Hid & Hloop).
    assert (Hmovies : _movies db2 = before ++ apply_update command m :: after).
    { unfold db2, update_movie. fold db1. rewrite Hloop. reflexivity. }
    assert (Hin2 : In id0 (map id (_movies db2))) by (rewrite Hids; exact Hin).
    destruct (update_loop_found _ id0 command Hin2)
      as (before' & m' & after' & Hsplit' & Hnot' & Hid' & Hloop').
    rewrite Hloop'. simpl.
    assert (Hplace : before' = before /\ m' = apply_update command m /\ after' = after).
    { rewrite Hmovies in Hsplit'. clear - Hsplit' Hnot Hnot' Hid Hid'.
      revert before' Hsplit' Hnot'.
      induction before as [|b before IH]; intros [|b' before'] Hs Hn'; simpl in *.
      - injection Hs as <- <-. auto.
      - injection Hs as <- _. exfalso. apply Hn'. left. simpl. exact Hid.
      - injection Hs as -> _. exfalso. apply Hnot. left. exact Hid'.
      - injection Hs as <- Hs.
        destruct (IH ltac:(tauto) before' Hs ltac:(tauto)) as (-> & -> & ->). auto. }
    destruct Hplace as (-> & -> & ->).
    rewrite apply_update_twice. rewrite <- Hmovies.
    destruct db2; reflexivity.
  - assert (Hout2 : ~ In id0 (map id (_movies db2))) by (rewrite Hids; exact Hout).
    rewrite (update_loop_missing _ _ _ Hout2). simpl. destruct db2; reflexivity.
Qed.

(** ** Handlers *)

(** X7: the handlers [get_movie], [update_movie] and [delete_movie] answer
    404 exactly when no record of the store bears the identifier, and a 200
    body otherwise; [get_movie] then gives a record with that identifier. *)
Theorem not_found_exactly_when_absent
    (source : DataSource) (id0 : Z) (command : UpdateMovieCommand)
    (db : MovieDatabase) :
  let present := In id0 (map id (_movies (_ensure_loaded source db))) in
  (present ->
   (exists m, fst (Api.get_movie source id0 db) = Body m /\ id m = id0)
   /\ fst (Api.update_movie source id0 command db) = Body tt
   /\ fst (Api.delete_movie source id0 db) = Body tt)
  /\ (~ present ->
      fst (Api.get_movie source id0 db) = HTTPException 404
      /\ fst (Api.update_movie source id0 command db) = HTTPException 404
      /\ fst (Api.delete_movie source id0 db) = HTTPException 404).
Proof.
  intro present. unfold present. split; intro H.
  - destruct (first_with_id _ _ H) as (before & m & after & Hsplit & Hnot & Hid).
    split; [|split].
    + exists m. unfold Api.get_movie, get_movie_by_id.
      rewrite (find_first _ _ _ _ _ Hsplit Hnot Hid). auto.
    + unfold Api.update_movie.
      destruct (update_loop_found _ id0 command H) as (? & ? & ? & _ & _ & _ & Hloop).
      unfold update_movie. rewrite Hloop. reflexivity.
    + unfold Api.delete_movie.
      destruct (delete_loop_found _ id0 H) as (? & ? & ? & _ & _ & _ & Hloop).
      unfold delete_movie. rewrite Hloop. reflexivity.
  - split; [|split].
    + unfold Api.get_movie, get_movie_by_id. rewrite (find_absent _ _ H). reflexivity.
    + unfold Api.update_movie, update_movie.
      rewrite (update_loop_missing _ _ _ H). reflexivity.
    + unfold Api.delete_movie, delete_movie.
      rewrite (delete_loop_missing _ _ H). reflexivity.
Qed.

Lemma index_of_first (before after : list Movie) (m : Movie) (id0 : Z) :
  ~ In id0 (map id before) -> id m = id0 ->
  index_of id0 (before ++ m :: after) = List.length before.
Proof.
  intros Hnot Hid. induction before as [|b before IH]; simpl.
  - rewrite Hid, Z.eqb_refl. reflexivity.
  - simpl in Hnot. destruct (id b =? id0) eqn:E.
    + apply Z.eqb_eq in E. tauto.
    + f_equal. apply IH. tauto.
Qed.

Lemma toggle_favorite_unfold
    (source : DataSource) (id0 : Z) (db : MovieDatabase)
    (before after : list Movie) (m : Movie) :
  _movies (_ensure_loaded source db) = before ++ m :: after ->
  ~ In id0 (map id before) -> id m = id0 ->
  Api.toggle_favorite source id0 db
  = (Body (is_favorite m),
     {| _movies := before
                   ++ apply_update (only_favorite (negb (is_favorite m))) m :: after;
        _next_id := _next_id (_ensure_loaded source db);
        _loaded := true |}).
Proof.
  intros Hsplit Hnot Hid.
  unfold Api.toggle_favorite, get_movie_by_id.
  rewrite (find_first _ _ _ _ _ Hsplit Hnot Hid).
  unfold update_movie. rewrite _ensure_loaded_again.
  assert (Hin : In id0 (map id (_movies (_ensure_loaded source db)))).
  { rewrite Hsplit, map_app. apply in_or_app. right. left. exact Hid. }
  destruct (update_loop_found _ id0 (only_favorite (negb (is_favorite m))) Hin)
    as (before' & m' & after' & Hsplit' & Hnot' & Hid' & Hloop).
  assert (Hsame : before' = before /\ m' = m /\ after' = after).
  { rewrite Hsplit in Hsplit'. clear - Hsplit' Hnot Hnot' Hid Hid'.
    revert before' Hsplit' Hnot'.
    induction before as [|b before IH]; intros [|b' before'] Hs Hn'; simpl in *.
    - injection Hs as <- <-. auto.
    - injection Hs as -> _. exfalso. apply Hn'. left. exact Hid.
    - injection Hs as <- _. exfalso. apply Hnot. left. exact Hid'.
    - injection Hs as <- Hs.
      destruct (IH ltac:(tauto) before' Hs ltac:(tauto)) as (-> & -> & ->). auto. }
  destruct Hsame as (-> & -> & ->).
  unfold only_favorite in Hloop. rewrite Hloop.
  cbn [negb _movies _next_id _loaded].
  rewrite Hsplit, (index_of_first _ _ _ _ Hnot Hid).
  rewrite app_nth2 by lia. rewrite Nat.sub_diag.
  cbn [nth apply_update is_favorite u_is_favorite].
  rewrite negb_involutive, _ensure_loaded_sets_flag. reflexivity.
Qed.

(** X8: [toggle_favorite] on an identifier of the store inverts the flag of
    the first record that bears it and changes nothing else.  The flag it
    answers is read from the record after the update has been made on it and
    then inverted: it is the flag the record had before, the opposite of the
    one now stored.  On an identifier of no record the answer is 404 and the
    store is the same.  The answer is never 500. *)
Theorem toggle_favorite_answers_old_flag
    (source : DataSource) (id0 : Z) (db : MovieDatabase) :
  let db1 := _ensure_loaded source db in
  let result := Api.toggle_favorite source id0 db in
  (forall before m after,
     _movies db1 = before ++ m :: after ->
     ~ In id0 (map id before) -> id m = id0 ->
     fst result = Body (is_favorite m)
     /\ _next_id (snd result) = _next_id db1
     /\ exists m',
          _movies (snd result) = before ++ m' :: after
          /\ is_favorite m' = negb (is_favorite m)
          /\ title m' = title m
          /\ overview m' = overview m
          /\ personal_rating m' = personal_rating m
          /\ personal_notes m' = personal_notes m
          /\ same_catalogue_fields m m')
  /\ (~ In id0 (map id (_movies db1)) ->
      fst result = HTTPException 404 /\ snd result = db1)
  /\ fst result <> HTTPException 500.
Proof.
  intros db1 result.
  assert (Hpresent : forall before m after,
     _movies db1 = before ++ m :: after ->
     ~ In id0 (map id before) -> id m = id0 ->
     fst result = Body (is_favorite m)
     /\ _next_id (snd result) = _next_id db1
     /\ exists m',
          _movies (snd result) = before ++ m' :: after
          /\ is_favorite m' = negb (is_favorite m)
          /\ title m' = title m
          /\ overview m' = overview m
          /\ personal_rating m' = personal_rating m
          /\ personal_notes m' = personal_notes m
          /\ same_catalogue_fields m m').
  { intros before m after Hsplit Hnot Hid. unfold result.
    rewrite (toggle_favorite_unfold source id0 db before after m Hsplit Hnot Hid).
    simpl. split; [reflexivity|]. split; [reflexivity|].
    eexists. split; [reflexivity|]. simpl.
    repeat split. }
  assert (Habsent : ~ In id0 (map id (_movies db1)) ->
            fst result = HTTPException 404 /\ snd result = db1).
  { intro Hout. unfold result, Api.toggle_favorite, get_movie_by_id. fold db1.
    rewrite (find_absent _ _ Hout). split; reflexivity. }
  split; [exact Hpresent|]. split; [exact Habsent|].
  destruct (in_dec Z.eq_dec id0 (map id (_movies db1))) as [Hin | Hout].
  - destruct (first_with_id _ _ Hin) as (before & m & after & Hsplit & Hnot & Hid).
    destruct (Hpresent before m after Hsplit Hnot Hid) as [-> _]. discriminate.
  - destruct (Habsent Hout) as [-> _]. discriminate.
Qed.

Lemma toggle_favorite_answers_old_flag_witness :
  fst (Api.toggle_favorite (Chunks DirMissing) 2 two_records) = Body false
  /\ map is_favorite
       (_movies (snd (Api.toggle_favorite (Chunks DirMissing) 2 two_records)))
     = [true; true].
Proof.
  destruct (toggle_favorite_answers_old_flag (Chunks DirMissing) 2 two_records)
    as (Hpresent & _ & _).
  destruct (Hpresent [drama 1] (unrated 2) [] eq_refl) as (Hanswer & _ & m' & Hstore & Hflag & _).
  - simpl. intros [H | []]; discriminate.
  - reflexivity.
  - split; [exact Hanswer|]. rewrite Hstore. simpl. rewrite Hflag. reflexivity.
Defined.

Lemma apply_update_toggle_back (m : Movie) :
  apply_update (only_favorite (negb (negb (is_favorite m))))
    (apply_update (only_favorite (negb (is_favorite m))) m) = m.
Proof. destruct m. simpl. rewrite negb_involutive. reflexivity. Qed.

(** X9: two calls of [toggle_favorite] for the same identifier leave the
    store as it was before them. *)
Theorem toggle_favorite_twice
    (source source' : DataSource) (id0 : Z) (db : MovieDatabase) :
  snd (Api.toggle_favorite source' id0 (snd (Api.toggle_favorite source id0 db)))
  = _ensure_loaded source db.
Proof.
  set (db1 := _ensure_loaded source db).
  assert (Hl : _loaded db1 = true) by apply _ensure_loaded_sets_flag.
  destruct (in_dec Z.eq_dec id0 (map id (_movies db1))) as [Hin | Hout].
  - destruct (first_with_id _ _ Hin) as (before & m & after & Hsplit & Hnot & Hid).
    rewrite (toggle_favorite_unfold source id0 db before after m Hsplit Hnot Hid).
    cbn [snd]. fold db1.
    erewrite toggle_favorite_unfold;
      [ | unfold _ensure_loaded; cbn [_loaded _movies]; reflexivity
        | exact Hnot | simpl; exact Hid ].
    cbn [snd].
    change (is_favorite (apply_update (only_favorite (negb (is_favorite m))) m))
      with (negb (is_favorite m)).
    rewrite apply_update_toggle_back, <- Hsplit.
    unfold _ensure_loaded at 1. cbn [_loaded _next_id].
    rewrite <- Hl. destruct db1; reflexivity.
  - assert (H1 : Api.toggle_favorite source id0 db = (HTTPException 404, db1)).
    { unfold Api.toggle_favorite, get_movie_by_id. fold db1.
      rewrite (find_absent _ _ Hout). reflexivity. }
    rewrite H1. cbn [snd].
    unfold Api.toggle_favorite, get_movie_by_id.
    rewrite (_ensure_loaded_when_loaded _ _ Hl), (find_absent _ _ Hout). reflexivity.
Qed.

(** ** The criteria, group by group *)
















Lemma truthy_str_spec (x : option string) :
  Py.truthy_str x = true <-> exists s, x = Some s /\ s <> "".
Proof.
  destruct x as [s|]; simpl.
  - rewrite negb_true_iff. split.
    + intro H. exists s. split; [reflexivity|]. intros ->. discriminate.
    + intros (s' & [= <-] & Hne). apply String.eqb_neq. exact Hne.
  - split; [discriminate | intros (? & [=] & _)].
Qed.







Lemma _apply_filters_filter (movies : list Movie) (filters : option MovieFilters) :
  _apply_filters movies filters = List.filter (keeps_all filters) movies.
Proof.
  destruct filters as [f|]; simpl keeps_all.
  - apply _apply_filters_keeps.
  - simpl. symmetry. apply filter_true.
Qed.

(** X11: criteria compose as an intersection.  Filtering by [f] and then by
    [g] keeps the records that each of them keeps, in the same order as
    filtering by [g] and then by [f]; filtering twice by the same criteria
    is filtering once. *)
Theorem apply_filters_compose (movies : list Movie) (f g : option MovieFilters) :
  _apply_filters (_apply_filters movies f) g
  = _apply_filters (_apply_filters movies g) f
  /\ _apply_filters (_apply_filters movies f) f = _apply_filters movies f
  /\ forall m, In m (_apply_filters (_apply_filters movies f) g) <->
               In m (_apply_filters movies f) /\ In m (_apply_filters movies g).
Proof.
  rewrite !_apply_filters_filter, !filter_twice. split; [|split].
  - apply filter_ext. intro m. apply andb_comm.
  - apply filter_ext. intro m. apply andb_diag.
  - intro m. rewrite !filter_In, andb_true_iff. tauto.
Qed.

Lemma slice_In {A} (l : list A) (start stop : Z) (x : A) :
  In x (Py.slice l start stop) -> In x l.
Proof.
  unfold Py.slice. intro H.
  match type of H with
  | In x (firstn ?a (skipn ?b l)) =>
      rewrite <- (firstn_skipn b l); apply in_or_app; right;
      rewrite <- (firstn_skipn a (skipn b l)); apply in_or_app; left; exact H
  end.
Qed.

Lemma get_movies_items_in (source : DataSource) (p n : Z)
    (filters : option MovieFilters) (db : MovieDatabase) (m : Movie) :
  In m (items (fst (get_movies source p n filters db))) ->
  In m (_apply_filters (_movies (_ensure_loaded source db)) filters).
Proof. rewrite get_movies_unfold. cbn [fst items]. apply slice_In. Qed.




Lemma favorites_filter (movies : list Movie) :
  _apply_filters movies (Some (filters_is_favorite true))
  = List.filter is_favorite movies.
Proof.
  rewrite _apply_filters_keeps. apply filter_ext. intro m.
  unfold keeps, filters_is_favorite, guarded, asks. simpl.
  destruct (is_favorite m); reflexivity.
Qed.

(** X13: every record on a page of [get_favorite_movies] is a favourite of the
    store, and the total it reports is the number of favourites of the
    store, which for a store of at most 99999 records is the
    [favorites_count] of [get_stats]. *)
Theorem favorites_page_and_count
    (source : DataSource) (p n : Z) (db : MovieDatabase) :
  let movies := _movies (_ensure_loaded source db) in
  let response := fst (Api.get_favorite_movies source p n db) in
  (forall m, In m (items response) -> In m movies /\ is_favorite m = true)
  /\ total response = len (List.filter is_favorite movies)
  /\ (len movies <= 99999 ->
      total response = favorites_count (fst (get_stats source db))).
Proof.
  intros movies response. unfold response, Api.get_favorite_movies.
  split; [|split].
  - intros m Hm. apply get_movies_items_in in Hm. fold movies in Hm.
    rewrite favorites_filter in Hm. apply filter_In in Hm. exact Hm.
  - rewrite get_movies_unfold. cbn [fst total]. fold movies.
    rewrite favorites_filter. reflexivity.
  - intro Hlen. rewrite get_movies_unfold, get_stats_unfold. cbv zeta.
    cbn [fst total favorites_count]. fold movies.
    rewrite favorites_filter, (all_movies_within_limit movies Hlen). reflexivity.
Qed.

Lemma favorites_page_and_count_witness :
  total (fst (Api.get_favorite_movies (Chunks DirMissing) 1 20 two_records))
  = favorites_count (fst (get_stats (Chunks DirMissing) two_records)).
Proof.
  apply (favorites_page_and_count (Chunks DirMissing) 1 20 two_records).
  unfold len. simpl. lia.
Defined.

Lemma _check_year_filter_nonzero_witness :
  _check_year_filter (Some "2022-05-01") (Some 2020) (Some 2024) = true.
Proof.
  apply (_check_year_filter_nonzero (Some "2022-05-01") (Some 2020) (Some 2024));
    [discriminate | discriminate |].
  exists "2022-05-01", 2022. repeat split; intros y [= <-]; lia.
Defined.

(** The page, the total and the page count of [get_movies], for a page and a
    page size of at least 1. *)
Lemma get_page_size
    (source : DataSource) (db : MovieDatabase) (filters : option MovieFilters)
    (p n : Z) :
  1 <= p -> 1 <= n ->
  let filtered := _apply_filters (_movies (_ensure_loaded source db)) filters in
  let response := fst (get_movies source p n filters db) in
  items response = firstn (Z.to_nat n) (skipn (Z.to_nat ((p - 1) * n)) filtered)
  /\ total response = len filtered
  /\ (total response = 0 -> pages response = 1)
  /\ (0 < total response ->
      (pages response - 1) * n < total response <= pages response * n).
Proof.
  intros Hp Hn filtered response. unfold response.
  rewrite get_movies_unfold. cbv zeta. fold filtered. cbn [fst items total pages].
  pose proof (ceil_div_bounds (len filtered) n ltac:(lia)) as Hceil.
  split.
  { rewrite slice_nonneg by nia. f_equal. f_equal. lia. }
  split; [reflexivity|]. split.
  - intros ->. reflexivity.
  - intro Hpos. destruct (len filtered >? 0) eqn:E; [exact Hceil|].
    rewrite Z.gtb_ltb in E. apply Z.ltb_ge in E. lia.
Qed.

(** ** Full pages *)

(** X14: for a page and a page size of at least 1, the page of [get_movies]
    has [size] records when it comes before the last page, the rest of the
    matches, at least one, when it is the last page, and none when it comes
    after the last page. *)
Theorem pages_are_full
    (source : DataSource) (db : MovieDatabase) (filters : option MovieFilters)
    (p n : Z) :
  1 <= p -> 1 <= n ->
  let response := fst (get_movies source p n filters db) in
  len (items response) = Z.max 0 (Z.min n (total response - (p - 1) * n))
  /\ (p < pages response -> len (items response) = n)
  /\ (p = pages response -> 0 < total response ->
      len (items response) = total response - (p - 1) * n
      /\ 1 <= len (items response))
  /\ (pages response < p -> items response = []).
Proof.
  intros Hp Hn response.
  destruct (get_page_size source db filters p n Hp Hn)
    as (Hitems & Htotal & Hpages0 & Hpages).
  fold response in Hitems, Htotal, Hpages0, Hpages.
  set (filtered := _apply_filters (_movies (_ensure_loaded source db)) filters) in *.
  pose proof (len_nonneg filtered) as Hlen.
  assert (Hsize : len (items response)
                  = Z.max 0 (Z.min n (total response - (p - 1) * n))).
  { rewrite Hitems, Htotal. unfold len.
    rewrite length_firstn, length_skipn. nia. }
  split; [exact Hsize|]. split; [|split].
  - intro Hlt. rewrite Hsize.
    destruct (Z.eq_dec (total response) 0) as [Hz | Hnz].
    + rewrite (Hpages0 Hz) in Hlt. lia.
    + specialize (Hpages ltac:(lia)). nia.
  - intros Heq Hpos. specialize (Hpages Hpos). rewrite Hsize, Heq in *. nia.
  - intro Hgt. apply length_zero_iff_nil.
    assert (len (items response) = 0); [|unfold len in *; lia].
    rewrite Hsize.
    destruct (Z.eq_dec (total response) 0) as [Hz | Hnz].
    + rewrite Hz. nia.
    + specialize (Hpages ltac:(lia)). nia.
Qed.

Lemma pages_are_full_witness :
  len (items (fst (get_movies (Chunks DirMissing) 1 1 None two_records))) = 1
  /\ items (fst (get_movies (Chunks DirMissing) 3 1 None two_records)) = [].
Proof.
  destruct (pages_are_full (Chunks DirMissing) two_records None 1 1
              ltac:(lia) ltac:(lia)) as (_ & Hfull & _).
  destruct (pages_are_full (Chunks DirMissing) two_records None 3 1
              ltac:(lia) ltac:(lia)) as (_ & _ & _ & Hpast).
  split; [apply Hfull | apply Hpast]; reflexivity.
Defined.

(** ** Identifiers on the single-file path *)

Lemma load_frame_rows_numbered (rows : list Row) :
  Forall always_accepted rows ->
  forall processed_count offset movies,
    numbered movies -> processed_count + offset = len movies ->
    numbered (load_frame_rows rows processed_count offset movies).
Proof.
  induction 1 as [|row rows Hrow _ IH]; intros processed_count offset movies Hn Hc;
    simpl; [exact Hn|].
  destruct (Hrow (processed_count + offset + 1)) as (m & Hm & Hid).
  rewrite Hm. apply IH.
  - apply numbered_snoc; [exact Hn | lia].
  - unfold len in *. rewrite length_app. simpl. lia.
Qed.

Lemma load_frames_numbered (frames : list (list Row)) :
  Forall (Forall always_accepted) frames ->
  forall movies, numbered movies -> numbered (load_frames frames movies).
Proof.
  induction 1 as [|rows frames Hrows _ IH]; intros movies Hn; simpl; [exact Hn|].
  apply IH. apply load_frame_rows_numbered; [exact Hrows | exact Hn | lia].
Qed.

(** X17: when [Movie.from_csv_row] rejects no row, the single-file loader
    numbers the records from 1 without gap, as the chunk loader does; the
    identifiers later creates return are then strictly increasing and above
    the number of loaded records, and the records of the store keep distinct
    identifiers, whatever is created, updated or deleted. *)
Theorem csv_identifiers_fresh_without_rejects
    (sample_parses : string -> bool) (chunk_reader : string -> list (list Row))
    (ops : list Operation) :
  (forall encoding, Forall (Forall always_accepted) (chunk_reader encoding)) ->
  let source := SingleCsv (CsvFile sample_parses chunk_reader) in
  let loaded := _ensure_loaded source init in
  let result := run source ops loaded in
  map id (_movies loaded) = count_from 1 (List.length (_movies loaded))
  /\ StronglySorted Z.lt (fst result)
  /\ Forall (fun new_id => len (_movies loaded) < new_id) (fst result)
  /\ NoDup (map id (_movies (snd result))).
Proof.
  intros Hrows source loaded result.
  assert (Hloaded : numbered (_movies loaded)
                    /\ _next_id loaded = len (_movies loaded) + 1).
  { unfold loaded, source.
    cbv beta iota zeta delta
      [_ensure_loaded init _loaded bulk_load _load_from_csv_chunked].
    destruct (find sample_parses encodings) as [encoding|];
      cbn [_movies _next_id].
    - split; [|reflexivity].
      apply load_frames_numbered; [apply Hrows | reflexivity].
    - split; reflexivity. }
  destruct Hloaded as [Hn Hc].
  assert (Hcons : consistent loaded).
  { apply numbered_consistent; [apply _ensure_loaded_sets_flag | exact Hn | exact Hc]. }
  destruct (run_consistent source ops loaded Hcons) as (Hfinal & _ & Hsorted & Hall).
  fold result in Hfinal, Hsorted, Hall.
  split; [exact Hn|]. split; [exact Hsorted|]. split.
  - eapply Forall_impl; [|exact Hall]. simpl. intros; lia.
  - apply Hfinal.
Qed.

Lemma plain_row_accepted : always_accepted plain_row.
Proof. intro i. exists (blank i). split; reflexivity. Qed.

Lemma csv_identifiers_fresh_without_rejects_witness :
  map id (_movies (_ensure_loaded
                     (SingleCsv (CsvFile (fun _ => true)
                                   (fun _ => [[plain_row; plain_row]; [plain_row]])))
                     init))
  = count_from 1 3.
Proof.
  apply (csv_identifiers_fresh_without_rejects
           (fun _ => true) (fun _ => [[plain_row; plain_row]; [plain_row]]) []).
  intro encoding. repeat constructor; apply plain_row_accepted.
Defined.

Lemma plain_row_faithful : faithful plain_row.
Proof. intros i m [= <-]. reflexivity. Qed.

Lemma malformed_row_faithful : faithful malformed_row.
Proof. intros i m [=]. Qed.

Lemma chunk_identifiers_fresh_witness :
  StronglySorted Z.lt
    (fst (run (Chunks three_chunk_rows)
            [Create test_movie; Delete 4; Create test_movie]
            (_ensure_loaded (Chunks three_chunk_rows) init))).
Proof.
  apply (chunk_identifiers_fresh three_chunk_rows
           [Create test_movie; Delete 4; Create test_movie]).
  simpl. repeat constructor;
    first [ apply plain_row_faithful | apply malformed_row_faithful ].
Defined.

Lemma unavailable_source_loads_nothing_witness :
  _ensure_loaded undecodable_csv init
  = {| _movies := []; _next_id := 1; _loaded := true |}.
Proof. apply unavailable_source_loads_nothing. reflexivity. Defined.


(** ** The chunking tool *)

Lemma write_chunks_spec {R} (frames : list (list R)) :
  forall chunk_number total_rows written,
    Chunker.write_chunks frames chunk_number total_rows written
    = (chunk_number + len frames,
       total_rows + len (List.concat frames),
       written ++ chunk_writes_from (chunk_number + 1) frames).
Proof.
  induction frames as [|chunk_df frames IH]; intros chunk_number total_rows written.
  - simpl. unfold len. simpl. rewrite !Z.add_0_r, app_nil_r. reflexivity.
  - cbn [Chunker.write_chunks chunk_writes_from List.concat].
    rewrite IH, <- app_assoc. cbn [app].
    replace (chunk_number + 1 + len frames) with (chunk_number + len (chunk_df :: frames))
      by (unfold len; cbn [List.length]; lia).
    replace (total_rows + len chunk_df + len (List.concat frames))
      with (total_rows + len (chunk_df ++ List.concat frames))
      by (unfold len; rewrite length_app; lia).
    reflexivity.
Qed.

Lemma chunk_writes_from_app {R} (a b : list (list R)) :
  forall first,
    chunk_writes_from first (a ++ b)
    = chunk_writes_from first a ++ chunk_writes_from (first + len a) b.
Proof.
  induction a as [|f a IH]; intro first; simpl.
  - unfold len. simpl. rewrite Z.add_0_r. reflexivity.
  - rewrite IH. do 3 f_equal. unfold len. cbn [List.length]. lia.
Qed.

Lemma chunk_writes_from_frames {R} (frames : list (list R)) :
  forall first,
    List.length (chunk_writes_from first frames) = List.length frames
    /\ List.concat
         (map (fun w => match w with
                        | Chunker.ToCsv _ chunk_df => chunk_df
                        | Chunker.JsonDump _ _ => []
                        end)
              (chunk_writes_from first frames))
       = List.concat frames.
Proof.
  induction frames as [|f frames IH]; intro first; simpl; [auto|].
  destruct (IH (first + 1)) as [Hl Hc]. rewrite Hl, Hc. auto.
Qed.

(** *** File names *)

Lemma append_cancel_l (p s t : string) : (p ++ s = p ++ t)%string -> s = t.
Proof. induction p as [|c p IH]; simpl; [auto | intros [= H]; auto]. Qed.

Lemma list_of_append (s t : string) :
  list_ascii_of_string (s ++ t) = list_ascii_of_string s ++ list_ascii_of_string t.
Proof. induction s as [|c s IH]; simpl; [reflexivity | rewrite IH; reflexivity]. Qed.

Lemma append_cancel_r (s t q : string) : (s ++ q = t ++ q)%string -> s = t.
Proof.
  intro H. apply (f_equal list_ascii_of_string) in H.
  rewrite !list_of_append in H. apply app_inv_tail in H.
  rewrite <- (string_of_list_ascii_of_string s), <- (string_of_list_ascii_of_string t).
  rewrite H. reflexivity.
Qed.

Lemma number_of_zeros (count : nat) (s : string) :
  number_of (Chunker.zeros count ++ s) = number_of s.
Proof.
  induction count as [|count IH]; simpl; [reflexivity|].
  unfold number_of in *. simpl.
  destruct (NilEmpty.uint_of_string (Chunker.zeros count ++ s)) as [d|];
    destruct (NilEmpty.uint_of_string s) as [d'|]; simpl in *;
    try discriminate; try reflexivity.
  injection IH as IH. f_equal. exact IH.
Qed.

Lemma number_of_decimal (n : Z) :
  number_of (Chunker.decimal n) = Some (Z.to_N n).
Proof.
  unfold number_of, Chunker.decimal.
  pose proof (DecimalN.Unsigned.of_to (Z.to_N n)) as Hback.
  destruct (N.to_uint (Z.to_N n)) as [|d|d|d|d|d|d|d|d|d|d] eqn:E;
    try (cbn [NilZero.string_of_uint]; rewrite NilEmpty.usu; cbn [option_map];
         f_equal; exact Hback).
  simpl. f_equal. exact Hback.
Qed.

Lemma format_03d_number (n : Z) :
  0 <= n -> number_of (Chunker.format_03d n) = Some (Z.to_N n).
Proof.
  intro Hn. unfold Chunker.format_03d.
  destruct (n <? 0) eqn:E; [apply Z.ltb_lt in E; lia|].
  unfold Chunker.zfill. rewrite number_of_zeros. apply number_of_decimal.
Qed.

Lemma chunk_filename_injective (a b : Z) :
  0 <= a -> 0 <= b -> Chunker.chunk_filename a = Chunker.chunk_filename b -> a = b.
Proof.
  intros Ha Hb H. unfold Chunker.chunk_filename in H.
  apply append_cancel_l, append_cancel_r in H.
  pose proof (format_03d_number a Ha) as Na.
  pose proof (format_03d_number b Hb) as Nb.
  rewrite H in Na. rewrite Na in Nb. injection Nb as Nb.
  apply (f_equal Z.of_N) in Nb. rewrite !Z2N.id in Nb by assumption. exact Nb.
Qed.

Lemma chunk_filename_not_metadata (n : Z) :
  Chunker.chunk_filename n <> "metadata.json".
Proof. unfold Chunker.chunk_filename. simpl. discriminate. Qed.

Lemma chunk_writes_from_names {R} (frames : list (list R)) :
  forall first,
    map Chunker.written_name (chunk_writes_from first frames)
    = map Chunker.chunk_filename (count_from first (List.length frames)).
Proof.
  induction frames as [|f frames IH]; intro first; simpl; [reflexivity|].
  rewrite IH. reflexivity.
Qed.

Lemma chunk_names_distinct (n : nat) :
  forall first, 0 <= first ->
    NoDup (map Chunker.chunk_filename (count_from first n)).
Proof.
  induction n as [|n IH]; intros first Hf; simpl; constructor.
  - intro Hin. apply in_map_iff in Hin. destruct Hin as (k & Heq & Hk).
    apply count_from_In in Hk.
    apply chunk_filename_injective in Heq; lia.
  - apply IH. lia.
Qed.

(** X21: [chunk_csv_file] returns [True] exactly when the input file is there,
    no exception comes up and the reader yields at least one frame.
    Whatever it returns, it has written one chunk file per frame read, each
    under a name of its own, holding the rows of the frames in order.  When
    it returns [True] the last file written is the metadata, whose counts
    are the number of chunk files and the number of their rows; otherwise
    no metadata are written. *)
Theorem chunk_csv_file_accounts {R}
    (input : Chunker.CsvInput R) (input_name : string) (chunk_size : Z) :
  let result := Chunker.chunk_csv_file input input_name chunk_size in
  (fst result = true <->
   exists frames, input = Chunker.Frames frames false /\ frames <> [])
  /\ NoDup (map Chunker.written_name (snd result))
  /\ forall frames raises,
       input = Chunker.Frames frames raises ->
       exists chunks rest,
         snd result = chunks ++ rest
         /\ chunks = chunk_writes_from 1 frames
         /\ List.length chunks = List.length frames
         /\ List.concat
              (map (fun w => match w with
                             | Chunker.ToCsv _ chunk_df => chunk_df
                             | Chunker.JsonDump _ _ => []
                             end) chunks)
            = List.concat frames
         /\ rest = if fst result
                   then [Chunker.JsonDump "metadata.json"
                           {| Chunker.original_file := input_name;
                              Chunker.total_chunks := len frames;
                              Chunker.total_rows := len (List.concat frames);
                              Chunker.chunk_size := chunk_size;
                              Chunker.chunk_pattern := "movies_chunk_*.csv" |}]
                   else [].
Proof.
  intro result. unfold result, Chunker.chunk_csv_file.
  destruct input as [|frames raises].
  - simpl. split; [|split].
    + split; [discriminate | intros (? & [=] & _)].
    + constructor.
    + intros ? ? [=].
  - rewrite write_chunks_spec. cbn [app].
    replace (0 + len frames) with (len frames) by lia.
    replace (0 + len (List.concat frames)) with (len (List.concat frames)) by lia.
    change (0 + 1) with 1.
    assert (Hzero : (len frames =? 0) = true <-> frames = []).
    { rewrite Z.eqb_eq. unfold len. destruct frames; simpl; split;
        try reflexivity; try discriminate; lia. }
    assert (Hnames : NoDup (map Chunker.written_name (chunk_writes_from 1 frames))).
    { rewrite chunk_writes_from_names. apply chunk_names_distinct. lia. }
    destruct (chunk_writes_from_frames frames 1) as [Hl Hc].
    destruct raises; [|destruct (len frames =? 0) eqn:E]; cbn [fst snd];
      (split; [|split]).
    + split; [discriminate | intros (? & [= _ ?] & _); discriminate].
    + exact Hnames.
    + intros ? ? [= <- <-]. exists (chunk_writes_from 1 frames), [].
      rewrite app_nil_r. auto.
    + split; [discriminate|]. intros (? & [= <-] & Hne).
      exfalso. apply Hne, Hzero. reflexivity.
    + exact Hnames.
    + intros ? ? [= <- <-]. exists (chunk_writes_from 1 frames), [].
      rewrite app_nil_r. auto.
    + split; [|reflexivity]. intros _. exists frames. split; [reflexivity|].
      intro Hnil. apply Hzero in Hnil. discriminate.
    + rewrite map_app. apply NoDup_app; [exact Hnames | repeat constructor; intros [] |].
      intros name Hin [<- | []]. rewrite chunk_writes_from_names in Hin.
      apply in_map_iff in Hin. destruct Hin as (k & Hk & _).
      exact (chunk_filename_not_metadata k Hk).
    + intros ? ? [= <- <-]. exists (chunk_writes_from 1 frames). eexists.
      split; [reflexivity|]. auto.
Qed.

Lemma chunk_csv_file_accounts_witness :
  fst (Chunker.chunk_csv_file (Chunker.Frames [[1; 2]; [3]] false) "movies.csv" 2)
  = true.
Proof.
  apply (chunk_csv_file_accounts (Chunker.Frames [[1; 2]; [3]] false) "movies.csv" 2).
  exists [[1; 2]; [3]]. split; [reflexivity | discriminate].
Defined.

(** *** The order of file names *)

Lemma ltb_lt (a b : string) : String.ltb a b = true <-> String_as_OT.lt a b.
Proof.
  rewrite <- String_as_OT.cmp_lt. unfold String.ltb, String_as_OT.cmp.
  destruct (String.compare a b); split; congruence.
Qed.

Lemma ltb_trans (a b c : string) :
  String.ltb a b = true -> String.ltb b c = true -> String.ltb a c = true.
Proof. rewrite !ltb_lt. apply String_as_OT.lt_trans. Qed.

Lemma ltb_irrefl (a : string) : String.ltb a a = false.
Proof.
  destruct (String.ltb a a) eqn:E; [|reflexivity].
  apply ltb_lt in E. exfalso. exact (String_as_OT.lt_not_eq _ _ E eq_refl).
Qed.

Lemma not_ltb (a b : string) :
  String.ltb b a = false -> a = b \/ String.ltb a b = true.
Proof.
  pose proof (String_as_OT.cmp_antisym a b) as Hanti.
  pose proof (String_as_OT.cmp_eq b a) as Heq.
  unfold String_as_OT.cmp in *. unfold String.ltb. rewrite Hanti.
  destruct (String.compare b a); simpl; intro H.
  - left. symmetry. apply Heq. reflexivity.
  - discriminate.
  - right. reflexivity.
Qed.

Section Names.

Variable C : Type.
Implicit Types (x y z : string * C) (l : list (string * C)).

Lemma name_lt_le x y : name_lt x y -> name_le x y.
Proof.
  unfold name_lt, name_le. intro H.
  destruct (String.ltb (fst y) (fst x)) eqn:E; [|reflexivity].
  pose proof (ltb_trans _ _ _ H E) as Hxx. rewrite ltb_irrefl in Hxx. discriminate.
Qed.

Lemma name_le_trans x y z : name_le x y -> name_le y z -> name_le x z.
Proof.
  unfold name_le. intros Hxy Hyz.
  destruct (String.ltb (fst z) (fst x)) eqn:E; [|reflexivity].
  destruct (not_ltb _ _ Hxy) as [Heq | Hlt].
  - rewrite Heq in E. congruence.
  - pose proof (ltb_trans _ _ _ E Hlt) as Hzy. congruence.
Qed.

Lemma insert_by_name_perm x l :
  Permutation (Chunker.insert_by_name x l) (x :: l).
Proof.
  induction l as [|y l IH]; simpl; [reflexivity|].
  destruct (String.ltb (fst y) (fst x)); [|reflexivity].
  rewrite IH. apply perm_swap.
Qed.

Lemma sorted_by_name_perm l : Permutation (Chunker.sorted_by_name l) l.
Proof.
  induction l as [|x l IH]; simpl; [reflexivity|].
  rewrite insert_by_name_perm, IH. reflexivity.
Qed.

Lemma insert_by_name_sorted x l :
  StronglySorted name_le l -> StronglySorted name_le (Chunker.insert_by_name x l).
Proof.
  induction 1 as [|y l Hs IH Hy]; simpl.
  - repeat constructor.
  - destruct (String.ltb (fst y) (fst x)) eqn:E.
    + constructor; [exact IH|].
      apply (Permutation_Forall (Permutation_sym (insert_by_name_perm x l))).
      constructor; [|exact Hy]. apply name_lt_le. exact E.
    + constructor; [constructor; assumption|].
      constructor; [exact E|].
      eapply Forall_impl; [|exact Hy]. intros z Hz.
      exact (name_le_trans _ _ _ E Hz).
Qed.

Lemma sorted_by_name_sorted l : StronglySorted name_le (Chunker.sorted_by_name l).
Proof.
  induction l as [|x l IH]; simpl; [constructor|].
  apply insert_by_name_sorted, IH.
Qed.

(** A list in ascending order of name has one arrangement only when the
    names are in strictly ascending order. *)
Lemma sorted_arrangement l1 :
  forall l2,
    StronglySorted name_le l1 -> StronglySorted name_lt l2 ->
    Permutation l1 l2 -> l1 = l2.
Proof.
  induction l1 as [|x l1 IH]; intros l2 H1 H2 Hp.
  - apply Permutation_nil in Hp. congruence.
  - destruct l2 as [|y l2];
      [apply Permutation_sym, Permutation_nil in Hp; discriminate|].
    inversion H1 as [|? ? H1' Hx]; subst.
    inversion H2 as [|? ? H2' Hy]; subst.
    assert (Hxy : x = y).
    { assert (Hin1 : In x (y :: l2)) by (apply (Permutation_in _ Hp); left; reflexivity).
      assert (Hin2 : In y (x :: l1))
        by (apply (Permutation_in _ (Permutation_sym Hp)); left; reflexivity).
      destruct Hin1 as [-> | Hin1]; [reflexivity|].
      destruct Hin2 as [-> | Hin2]; [reflexivity|].
      pose proof (proj1 (Forall_forall _ _) Hx y Hin2) as Hle.
      pose proof (proj1 (Forall_forall _ _) Hy x Hin1) as Hlt.
      unfold name_le, name_lt in *. congruence. }
    subst y. f_equal. apply IH; [exact H1' | exact H2' |].
    exact (Permutation_cons_inv Hp).
Qed.

Lemma filter_perm (p : string * C -> bool) l1 l2 :
  Permutation l1 l2 -> Permutation (List.filter p l1) (List.filter p l2).
Proof.
  induction 1 as [|x l1 l2 _ IH|x y l|l1 l2 l3 _ IH1 _ IH2]; simpl.
  - reflexivity.
  - destruct (p x); [constructor|]; exact IH.
  - destruct (p x), (p y); try reflexivity. apply perm_swap.
  - exact (Permutation_trans IH1 IH2).
Qed.

End Names.

(** *** The names of the chunk files, one by one *)

Lemma names_ascend_to_999 :
  forallb (fun i => String.ltb (Chunker.chunk_filename i) (Chunker.chunk_filename (i + 1)))
          (count_from 1 998) = true.
Proof. vm_compute. reflexivity. Qed.

Lemma names_match_to_999 :
  forallb (fun i => Chunker.glob_matches (Chunker.chunk_filename i))
          (count_from 1 999) = true.
Proof. vm_compute. reflexivity. Qed.

Lemma name_1000_before_999 :
  String.ltb (Chunker.chunk_filename 1000) (Chunker.chunk_filename 999) = true.
Proof. reflexivity. Qed.

Lemma next_name_above (i : Z) :
  1 <= i < 999 ->
  String.ltb (Chunker.chunk_filename i) (Chunker.chunk_filename (i + 1)) = true.
Proof.
  intro Hi.
  apply (proj1 (forallb_forall _ _) names_ascend_to_999 i).
  apply count_from_In. simpl. lia.
Qed.

Lemma later_name_above (i : Z) (d : nat) :
  1 <= i -> i + Z.of_nat d + 1 <= 999 ->
  String.ltb (Chunker.chunk_filename i)
             (Chunker.chunk_filename (i + Z.of_nat d + 1)) = true.
Proof.
  intros Hi. induction d as [|d IH]; intro Hd.
  - rewrite Z.add_0_r. apply next_name_above. simpl in Hd. lia.
  - apply (ltb_trans _ (Chunker.chunk_filename (i + Z.of_nat d + 1))).
    + apply IH. lia.
    + replace (i + Z.of_nat (S d) + 1) with (i + Z.of_nat d + 1 + 1) by lia.
      apply next_name_above. lia.
Qed.

Lemma chunk_name_matches (i : Z) :
  1 <= i <= 999 -> Chunker.glob_matches (Chunker.chunk_filename i) = true.
Proof.
  intro Hi.
  apply (proj1 (forallb_forall _ _) names_match_to_999 i).
  apply count_from_In. simpl. lia.
Qed.

Lemma chunk_files_ascend {R} (frames : list (list R)) :
  forall first,
    1 <= first -> first + len frames <= 1000 ->
    StronglySorted name_lt (as_files (chunk_writes_from first frames))
    /\ Forall (fun file => forall i, 1 <= i < first ->
                 String.ltb (Chunker.chunk_filename i) (fst file) = true)
              (as_files (chunk_writes_from first frames)).
Proof.
  induction frames as [|f frames IH]; intros first Hf Hlen.
  - split; constructor.
  - assert (Hl : len (f :: frames) = len frames + 1)
      by (unfold len; cbn [List.length]; lia).
    rewrite Hl in Hlen.
    destruct (IH (first + 1) ltac:(lia) ltac:(lia)) as [Hs Hall].
    cbn [chunk_writes_from as_files map]. fold (as_files (chunk_writes_from (first + 1) frames)).
    split.
    + constructor; [exact Hs|].
      eapply Forall_impl; [|exact Hall]. intros file H.
      unfold name_lt. cbn [fst Chunker.written_name]. apply H. lia.
    + constructor.
      * intros i Hi. cbn [fst Chunker.written_name].
        replace first with (i + Z.of_nat (Z.to_nat (first - i - 1)) + 1) by lia.
        pose proof (len_nonneg frames).
        apply later_name_above; lia.
      * eapply Forall_impl; [|exact Hall]. intros file H i Hi. apply H. lia.
Qed.

Lemma chunk_files_match {R} (frames : list (list R)) :
  forall first,
    1 <= first -> first + len frames <= 1000 ->
    List.filter (fun file => Chunker.glob_matches (fst file))
                (as_files (chunk_writes_from first frames))
    = as_files (chunk_writes_from first frames).
Proof.
  induction frames as [|f frames IH]; intros first Hf Hlen; [reflexivity|].
  assert (Hl : len (f :: frames) = len frames + 1)
    by (unfold len; cbn [List.length]; lia).
  rewrite Hl in Hlen.
  cbn [chunk_writes_from as_files map List.filter fst Chunker.written_name].
  pose proof (len_nonneg frames).
  rewrite chunk_name_matches by lia. f_equal.
  apply (IH (first + 1)); lia.
Qed.

Lemma sorted_tail {A} (R : A -> A -> Prop) (l1 l2 : list A) :
  StronglySorted R (l1 ++ l2) -> StronglySorted R l2.
Proof.
  induction l1 as [|x l1 IH]; simpl; [auto|].
  intro H. inversion H; auto.
Qed.

Lemma as_files_app {R} (a b : list (Chunker.Write R)) :
  as_files (a ++ b) = as_files a ++ as_files b.
Proof. apply map_app. Qed.

Lemma written_chunk_files {R} (frames : list (list R)) (raises : bool)
    (input_name : string) (chunk_size : Z) :
  List.filter (fun file => Chunker.glob_matches (fst file))
    (as_files (snd (Chunker.chunk_csv_file (Chunker.Frames frames raises)
                      input_name chunk_size)))
  = List.filter (fun file => Chunker.glob_matches (fst file))
      (as_files (chunk_writes_from 1 frames)).
Proof.
  unfold Chunker.chunk_csv_file. rewrite write_chunks_spec. cbn [app].
  change (0 + 1) with 1.
  destruct raises; [reflexivity|].
  destruct (0 + len frames =? 0); [reflexivity|].
  cbn [snd]. rewrite as_files_app, filter_app. cbn. apply app_nil_r.
Qed.

(** X22: the loader lists the chunk files with [sorted(glob(...))], by name.
    On a directory that holds what [chunk_csv_file] has written, listed in
    any order, this gives the chunk files in the order they were written,
    without the metadata, as long as there are at most 999 of them.  From
    1000 chunk files on it does not: the names then have four digits and
    sort before shorter ones. *)
Theorem chunks_listed_in_writing_order {R}
    (frames : list (list R)) (raises : bool) (input_name : string)
    (chunk_size : Z) (listing : list (string * Chunker.Write R)) :
  Permutation listing
    (as_files (snd (Chunker.chunk_csv_file (Chunker.Frames frames raises)
                      input_name chunk_size))) ->
  ((List.length frames <= 999)%nat ->
   Chunker.sorted_glob listing = as_files (chunk_writes_from 1 frames))
  /\ ((1000 <= List.length frames)%nat ->
      Chunker.sorted_glob listing <> as_files (chunk_writes_from 1 frames)).
Proof.
  intro Hperm. split.
  - intro Hlen. unfold Chunker.sorted_glob.
    apply sorted_arrangement.
    + apply sorted_by_name_sorted.
    + apply chunk_files_ascend; unfold len; lia.
    + rewrite sorted_by_name_perm.
      rewrite (filter_perm _ _ _ _ Hperm), written_chunk_files.
      rewrite chunk_files_match by (unfold len; lia). reflexivity.
  - intros Hlen Heq.
    pose proof (sorted_by_name_sorted _
                  (List.filter (fun file => Chunker.glob_matches (fst file)) listing))
      as Hsorted.
    fold (Chunker.sorted_glob listing) in Hsorted. rewrite Heq in Hsorted.
    rewrite <- (firstn_skipn 998 frames) in Hsorted.
    assert (Hfirst : List.length (firstn 998 frames) = 998%nat)
      by (rewrite length_firstn; lia).
    destruct (skipn 998 frames) as [|f1 [|f2 rest]] eqn:Hskip;
      try (apply (f_equal (@List.length _)) in Hskip;
           rewrite length_skipn in Hskip; simpl in Hskip; lia).
    rewrite chunk_writes_from_app, as_files_app in Hsorted.
    apply sorted_tail in Hsorted.
    unfold len in Hsorted. rewrite Hfirst in Hsorted.
    change (1 + Z.of_nat 998) with 999 in Hsorted.
    cbn [chunk_writes_from as_files map] in Hsorted.
    inversion Hsorted as [|? ? _ Hhead]; subst.
    inversion Hhead as [|? ? Hle _]; subst.
    unfold name_le in Hle. cbn [fst Chunker.written_name] in Hle.
    change (999 + 1) with 1000 in Hle.
    rewrite name_1000_before_999 in Hle. discriminate.
Qed.

Lemma chunks_listed_in_writing_order_witness :
  Chunker.sorted_glob two_chunks_listing
  = as_files (chunk_writes_from 1 [[1; 2]; [3]]).
Proof.
  apply (chunks_listed_in_writing_order [[1; 2]; [3]] false "movies.csv" 2
           two_chunks_listing).
  - exact (Permutation_rev two_chunks_listing).
  - simpl. lia.
Defined.

(** ** What the loaders make of the rows *)

Lemma load_chunk_rows_parsed (rows : list Row) :
  forall movies total_loaded,
    load_chunk_rows rows (movies, total_loaded)
    = (movies ++ parsed_from (total_loaded + 1) rows,
       total_loaded + len (parsed_from (total_loaded + 1) rows)).
Proof.
  induction rows as [|row rows IH]; intros movies total_loaded; simpl.
  - unfold len. simpl. rewrite app_nil_r, Z.add_0_r. reflexivity.
  - destruct (row (total_loaded + 1)) as [m|].
    + rewrite IH, <- app_assoc. simpl. f_equal.
      unfold len. cbn [List.length]. lia.
    + apply IH.
Qed.

Lemma load_chunk_rows_app (a b : list Row) (state : list Movie * Z) :
  load_chunk_rows (a ++ b) state = load_chunk_rows b (load_chunk_rows a state).
Proof.
  revert state. induction a as [|row a IH]; intros [movies total_loaded]; simpl.
  - reflexivity.
  - destruct (row (total_loaded + 1)); apply IH.
Qed.

Lemma load_chunk_files_rows (chunk_files : list ChunkFile) :
  forall state,
    load_chunk_files chunk_files state = load_chunk_rows (rows_of chunk_files) state.
Proof.
  induction chunk_files as [|[rows|] files IH]; intro state; simpl.
  - destruct state. reflexivity.
  - rewrite load_chunk_rows_app. apply IH.
  - apply IH.
Qed.

Lemma chunk_load_parsed (chunk_files : list ChunkFile) :
  _ensure_loaded (Chunks (DirFiles chunk_files)) init
  = {| _movies := parsed_from 1 (rows_of chunk_files);
       _next_id := len (parsed_from 1 (rows_of chunk_files)) + 1;
       _loaded := true |}.
Proof.
  destruct chunk_files as [|file files]; [reflexivity|].
  cbv beta iota zeta delta [_ensure_loaded init _loaded bulk_load _load_from_chunks].
  rewrite load_chunk_files_rows, load_chunk_rows_parsed. reflexivity.
Qed.

(** X18: the chunk loader makes the store of the accepted rows of the readable
    files, in order: every record is given the number of records before it
    plus one, and the counter ends one above the number of records.  Two
    directories whose readable files hold the same rows, however the rows
    are spread over the files and whatever unreadable files lie in between,
    give the same store. *)
Theorem chunk_loader_reads_rows_in_order (chunk_files chunk_files' : list ChunkFile) :
  let db := _ensure_loaded (Chunks (DirFiles chunk_files)) init in
  _movies db = parsed_from 1 (rows_of chunk_files)
  /\ _next_id db = len (_movies db) + 1
  /\ (rows_of chunk_files = rows_of chunk_files' ->
      _ensure_loaded (Chunks (DirFiles chunk_files')) init = db).
Proof.
  intro db. unfold db. rewrite !chunk_load_parsed. cbn [_movies _next_id].
  split; [reflexivity|]. split; [reflexivity|].
  intros <-. reflexivity.
Qed.

Lemma chunk_loader_reads_rows_in_order_witness :
  _ensure_loaded (Chunks (DirFiles [Readable [plain_row; plain_row]])) init
  = _ensure_loaded
      (Chunks (DirFiles [Readable [plain_row]; Unreadable; Readable [plain_row]]))
      init.
Proof.
  apply (chunk_loader_reads_rows_in_order
           [Readable [plain_row]; Unreadable; Readable [plain_row]]
           [Readable [plain_row; plain_row]]).
  reflexivity.
Defined.

Lemma load_frame_rows_parsed (rows : list Row) :
  Forall never_rejected rows ->
  forall processed_count offset movies,
    processed_count + offset = len movies ->
    load_frame_rows rows processed_count offset movies
    = movies ++ parsed_from (len movies + 1) rows.
Proof.
  induction 1 as [|row rows Hrow _ IH]; intros processed_count offset movies Hc; simpl.
  - rewrite app_nil_r. reflexivity.
  - rewrite Hc. destruct (row (len movies + 1)) as [m|] eqn:E.
    + rewrite (IH processed_count (offset + 1) (movies ++ [m])).
      * rewrite <- app_assoc. simpl. do 3 f_equal.
        unfold len. rewrite length_app. simpl. lia.
      * unfold len in *. rewrite length_app. simpl. lia.
    + exfalso. exact (Hrow _ E).
Qed.

Lemma parsed_from_app (a b : list Row) :
  Forall never_rejected a ->
  forall next,
    parsed_from next (a ++ b)
    = parsed_from next a ++ parsed_from (next + len a) b.
Proof.
  induction 1 as [|row a Hrow _ IH]; intro next; simpl.
  - unfold len. simpl. rewrite Z.add_0_r. reflexivity.
  - destruct (row next) as [m|] eqn:E; [|exfalso; exact (Hrow _ E)].
    rewrite IH. simpl. do 3 f_equal. unfold len. cbn [List.length]. lia.
Qed.

Lemma parsed_from_length (rows : list Row) :
  Forall never_rejected rows ->
  forall next, len (parsed_from next rows) = len rows.
Proof.
  induction 1 as [|row rows Hrow _ IH]; intro next; simpl; [reflexivity|].
  destruct (row next) as [m|] eqn:E; [|exfalso; exact (Hrow _ E)].
  unfold len in *. cbn [List.length]. rewrite !Nat2Z.inj_succ, IH. reflexivity.
Qed.

Lemma load_frames_parsed (frames : list (list Row)) :
  Forall (Forall never_rejected) frames ->
  forall movies,
    load_frames frames movies
    = movies ++ parsed_from (len movies + 1) (List.concat frames).
Proof.
  induction 1 as [|rows frames Hrows Hrest IH]; intro movies; simpl.
  - rewrite app_nil_r. reflexivity.
  - rewrite (load_frame_rows_parsed rows Hrows (len movies) 0 movies) by lia.
    rewrite IH, <- app_assoc. f_equal.
    rewrite (parsed_from_app rows _ Hrows). f_equal. f_equal.
    pose proof (parsed_from_length rows Hrows (len movies + 1)) as Hl.
    unfold len in *. rewrite length_app. lia.
Qed.

(** X19: when no row is rejected, the single-file loader and the chunk loader
    make the same store of the same rows, however the rows are split into
    frames on one side and into chunk files on the other. *)
Theorem loaders_agree_without_rejects
    (sample_parses : string -> bool) (chunk_reader : string -> list (list Row))
    (encoding : string) (chunk_files : list ChunkFile) :
  find sample_parses encodings = Some encoding ->
  Forall (Forall never_rejected) (chunk_reader encoding) ->
  List.concat (chunk_reader encoding) = rows_of chunk_files ->
  _ensure_loaded (SingleCsv (CsvFile sample_parses chunk_reader)) init
  = _ensure_loaded (Chunks (DirFiles chunk_files)) init.
Proof.
  intros Henc Hrows Hsame.
  rewrite chunk_load_parsed.
  cbv beta iota zeta delta
    [_ensure_loaded init _loaded bulk_load _load_from_csv_chunked].
  rewrite Henc. cbn [_movies _next_id].
  rewrite (load_frames_parsed _ Hrows []). cbn [app].
  change (len [] + 1) with 1. rewrite Hsame. reflexivity.
Qed.

Lemma plain_row_never_rejected : never_rejected plain_row.
Proof. intros i. discriminate. Qed.

Lemma loaders_agree_without_rejects_witness :
  _ensure_loaded
    (SingleCsv (CsvFile (fun _ => true)
                  (fun _ => [[plain_row; plain_row]; [plain_row]]))) init
  = _ensure_loaded
      (Chunks (DirFiles [Readable [plain_row]; Unreadable;
                         Readable [plain_row; plain_row]])) init.
Proof.
  apply (loaders_agree_without_rejects (fun _ => true)
           (fun _ => [[plain_row; plain_row]; [plain_row]]) "latin-1").
  - reflexivity.
  - repeat constructor; apply plain_row_never_rejected.
  - reflexivity.
Defined.
